(** * A menu-driven crypto price bot: navigation handler and fetch helper

    Shallow embedding of [crypto_bot.py].  The Python values that flow
    through the program are JSON documents decoded by [response.json()];
    the handlers are sequential programs over the HTTP network, the chat
    transcript and the per-user dictionary [context.user_data], and they
    may raise.  They are embedded in a state-and-exception monad. *)

From stdpp Require Import gmap strings list pretty.
From Stdlib Require Import ZArith Ascii.

#[local] Set Warnings "-register-all".

(** ** Python values *)

(** What [response.json()] can produce.  A float is kept as the text that
    [repr] prints for it: the program never computes with numbers, it only
    tests them for truth and formats them. *)
Inductive json : Type :=
  | JNull
  | JBool (b : bool)
  | JInt (z : Z)
  | JFloat (digits : string)
  | JStr (s : string)
  | JArr (l : list json)
  | JObj (m : gmap string json).

(** [None] is the JSON null. *)
Definition py_None : json := JNull.

(** Truth value of an object, as tested by [if details:] and [not x]. *)
Definition truthy (v : json) : bool :=
  match v with
  | JNull => false
  | JBool b => b
  | JInt z => negb (z =? 0)%Z
  | JFloat d => negb (bool_decide (d = "0.0") || bool_decide (d = "-0.0"))
  | JStr s => negb (bool_decide (s = ""))
  | JArr l => negb (bool_decide (l = []))
  | JObj m => negb (bool_decide (m = ∅))
  end.

(** The text primitives of the runtime that are not re-implemented here:
    [repr] of a value that is not a string, and the Unicode case mappings
    [str.upper] and [str.capitalize]. *)
Class PyText := {
  repr : json -> string;
  upper : string -> string;
  capitalize : string -> string
}.

(** [str(v)], which is what an f-string field [{v}] inserts. *)
Definition py_str `{PyText} (v : json) : string :=
  match v with
  | JStr s => s
  | _ => repr v
  end.

(** ** Exceptions and the handler monad *)

(** The exception classes that can arise.  [RequestException] stands for
    every error of [requests] that is not an [HTTPError]: a connection
    failure, a timeout, a body that is not JSON. *)
Inductive exn : Type :=
  | HTTPError
  | RequestException
  | TypeError
  | AttributeError
  | IndexError.

#[global] Instance exn_eq_dec : EqDecision exn.
Proof. solve_decision. Defined.

Inductive outcome (A : Type) : Type :=
  | Ok (a : A)
  | Raise (e : exn).
Arguments Ok {A} a.
Arguments Raise {A} e.

(** Pure code that may raise. *)
Definition obind {A B} (o : outcome A) (k : A -> outcome B) : outcome B :=
  match o with
  | Ok a => k a
  | Raise e => Raise e
  end.

Fixpoint omap_list {A B} (f : A -> outcome B) (l : list A) : outcome (list B) :=
  match l with
  | [] => Ok []
  | x :: l' =>
      obind (f x) (fun y => obind (omap_list f l') (fun ys => Ok (y :: ys)))
  end.

(** Code that may raise and that reads and writes a state [S].  The state
    reached when an exception is raised is kept: what was sent or stored
    before stays sent or stored. *)
Definition M (S A : Type) : Type := S -> outcome A * S.

Definition ret {S A} (a : A) : M S A := fun s => (Ok a, s).

Definition raise {S A} (e : exn) : M S A := fun s => (Raise e, s).

Definition bind {S A B} (m : M S A) (k : A -> M S B) : M S B :=
  fun s =>
    match m s with
    | (Ok a, s') => k a s'
    | (Raise e, s') => (Raise e, s')
    end.

Definition lift {S A} (o : outcome A) : M S A := fun s => (o, s).

(** [try: body / except <class>: handler e]. *)
Definition try_except {S A} (body : M S A) (handler : exn -> M S A) : M S A :=
  fun s =>
    match body s with
    | (Ok a, s') => (Ok a, s')
    | (Raise e, s') => handler e s'
    end.

Declare Scope py_scope.
Delimit Scope py_scope with py.
Notation "'let?' x ':=' o 'in' k" := (obind o (fun x => k))
  (at level 10, x name, k at level 200) : py_scope.
Notation "'let*' x ':=' m 'in' k" := (bind m (fun x => k))
  (at level 10, x name, k at level 200) : py_scope.
Notation "m ';;;' k" := (bind m (fun _ => k))
  (at level 100, right associativity) : py_scope.
Open Scope py_scope.

(** ** Constants *)

Definition COINGECKO_API_URL : string := "https://api.coingecko.com/api/v3".

(** [MAIN_MENU, CHOOSING_CRYPTO, CHOOSING_CURRENCY, TYPING_SEARCH,
    COMPARE_SELECTION = range(5)] *)
Definition MAIN_MENU : nat := 0.
Definition CHOOSING_CRYPTO : nat := 1.
Definition CHOOSING_CURRENCY : nat := 2.
Definition TYPING_SEARCH : nat := 3.
Definition COMPARE_SELECTION : nat := 4.

Definition SUPPORTED_CURRENCIES : list string :=
  ["usd"; "eur"; "gbp"; "jpy"; "aud"; "cad"; "chf"; "cny"; "inr"].

(** ** The HTTP side *)

Record request := { url : string; params : option (gmap string json) }.

(** What one [requests.get] meets: no reply at all, or a reply with a
    status code and a body that is a JSON document or not. *)
Inductive reply : Type :=
  | ConnectionFailed
  | Response (status_code : Z) (body : option json).

Inductive http_event : Type :=
  | Get (r : request)
  | LogWarning
  | LogError
  | Sleep (seconds : nat).

(** The network answers the [n]-th request ever sent, whatever it is. *)
Record Http := {
  net : nat -> request -> reply;
  sent : nat;
  http_log : list http_event
}.

Definition http_emit (e : http_event) : M Http unit :=
  fun h => (Ok tt, {| net := net h; sent := sent h; http_log := http_log h ++ [e] |}).

(** [requests.get(url, params=params)] *)
Definition requests_get (r : request) : M Http (Z * option json) :=
  fun h =>
    let h' := {| net := net h; sent := S (sent h); http_log := http_log h ++ [Get r] |} in
    match net h (sent h) r with
    | ConnectionFailed => (Raise RequestException, h')
    | Response st b => (Ok (st, b), h')
    end.

(** [response.raise_for_status()]: client and server error codes raise. *)
Definition raise_for_status (response : Z * option json) : M Http unit :=
  if bool_decide (400 <= fst response < 600)%Z then raise HTTPError else ret tt.

(** [response.json()] *)
Definition response_json (response : Z * option json) : M Http json :=
  match snd response with
  | Some j => ret j
  | None => raise RequestException
  end.

(** The loop of [make_api_request], over the values of [range(5)] still
    to come. *)
Fixpoint make_api_request_loop (attempts : list nat) (r : request) : M Http json :=
  match attempts with
  | [] => ret py_None
  | _ :: rest =>
      try_except
        (let* response := requests_get r in
         raise_for_status response ;;;
         response_json response)
        (fun err =>
           match err with
           | HTTPError =>
               http_emit LogWarning ;;;
               http_emit (Sleep 2) ;;;
               make_api_request_loop rest r
           | _ =>
               http_emit LogError ;;;
               ret py_None
           end)
  end.

Definition make_api_request (url : string) (params : option (gmap string json)) : M Http json :=
  make_api_request_loop (seq 0 5) {| url := url; params := params |}.

Definition get_top_cryptos_params (limit : Z) : gmap string json :=
  <["vs_currency" := JStr "usd"]>
  (<["order" := JStr "market_cap_desc"]>
  (<["per_page" := JInt limit]>
  (<["page" := JInt 1]>
  (<["sparkline" := JBool false]> ∅)))).

Definition get_top_cryptos (limit : Z) : M Http json :=
  make_api_request (COINGECKO_API_URL +:+ "/coins/markets") (Some (get_top_cryptos_params limit)).

Definition get_trending_cryptos : M Http json :=
  make_api_request (COINGECKO_API_URL +:+ "/search/trending") None.

Definition get_crypto_details_params (crypto_id currency : string) : gmap string json :=
  <["ids" := JStr crypto_id]>
  (<["vs_currencies" := JStr currency]>
  (<["include_24hr_change" := JStr "true"]>
  (<["include_market_cap" := JStr "true"]> ∅))).

Definition get_crypto_details (crypto_id currency : string) : M Http json :=
  make_api_request (COINGECKO_API_URL +:+ "/simple/price")
    (Some (get_crypto_details_params crypto_id currency)).

(** ** Strings and sequences *)

Definition LF : string := String "010"%char "".

(** [s.startswith(prefix)] *)
Fixpoint startswith (s pre : string) {struct pre} : bool :=
  match pre with
  | EmptyString => true
  | String a pre' =>
      match s with
      | EmptyString => false
      | String b s' => bool_decide (a = b) && startswith s' pre'
      end
  end.

(** [s.split(sep)] for a separator of one character: the pieces between
    the occurrences of [sep], at least one piece. *)
Fixpoint split (sep : ascii) (s : string) : list string :=
  match s with
  | EmptyString => [EmptyString]
  | String c s' =>
      if bool_decide (c = sep) then EmptyString :: split sep s'
      else
        match split sep s' with
        | piece :: pieces => String c piece :: pieces
        | [] => [String c EmptyString]
        end
  end.

(** [l[i]] *)
Definition index {A} (l : list A) (i : nat) : outcome A :=
  match l !! i with
  | Some x => Ok x
  | None => Raise IndexError
  end.

(** [range(start, stop, step)] for a positive step. *)
Definition range (start stop step : nat) : list nat :=
  (fun k => start + k * step) <$> seq 0 ((stop - start + (step - 1)) / step).

(** [len(v)]: defined on strings, lists and dicts.  (The length of a
    string is counted here in bytes; the program only iterates over it
    and fails on the first character, so the count does not matter.) *)
Definition len (v : json) : outcome nat :=
  match v with
  | JStr s => Ok (String.length s)
  | JArr l => Ok (length l)
  | JObj m => Ok (size m)
  | _ => Raise TypeError
  end.

(** The items of [v[i:j]].  A list gives the sublist; a string gives its
    characters, each a string; a dict cannot be subscripted with a slice
    ([TypeError]; a [KeyError] from CPython 3.12 on, equally uncaught). *)
Definition slice (v : json) (i j : nat) : outcome (list json) :=
  match v with
  | JArr l => Ok (take (j - i) (drop i l))
  | JStr s =>
      Ok ((fun c => JStr (String c ""))
            <$> take (j - i) (drop i (String.list_ascii_of_string s)))
  | _ => Raise TypeError
  end.

(** [d.get(key, dflt)]: only a dict has the method. *)
Definition dict_get (d : json) (key : string) (dflt : json) : outcome json :=
  match d with
  | JObj m => Ok (default dflt (m !! key))
  | _ => Raise AttributeError
  end.

(** [v.upper()]: only a string has the method. *)
Definition str_upper `{PyText} (v : json) : outcome string :=
  match v with
  | JStr s => Ok (upper s)
  | _ => Raise AttributeError
  end.

(** ** The chat side *)

Record InlineKeyboardButton := { text : string; callback_data : string }.

Definition InlineKeyboardMarkup : Type := list (list InlineKeyboardButton).

(** What the handlers send to the chat. *)
Inductive chat_event : Type :=
  | Answer
  | EditMessageText (text : string) (reply_markup : option InlineKeyboardMarkup)
  | ReplyText (text : string) (reply_markup : option InlineKeyboardMarkup).

(** An update carries a pressed button's payload, or a message, or
    neither of them (an edited message, a channel post): then both
    [update.callback_query] and [update.message] are [None]. *)
Inductive Update : Type :=
  | CallbackQuery (data : string)
  | Message (message_text : string)
  | OtherUpdate.

Definition callback_query (update : Update) : option string :=
  match update with
  | CallbackQuery data => Some data
  | Message _ | OtherUpdate => None
  end.

(** What a handler works on: the user's dictionary [context.user_data]
    (this program stores only strings in it), the HTTP side and the chat
    transcript. *)
Record World := {
  user_data : gmap string string;
  http : Http;
  chat : list chat_event
}.

Definition run_http {A} (m : M Http A) : M World A :=
  fun w =>
    let (r, h') := m (http w) in
    (r, {| user_data := user_data w; http := h'; chat := chat w |}).

Definition chat_emit (e : chat_event) : M World unit :=
  fun w => (Ok tt, {| user_data := user_data w; http := http w; chat := chat w ++ [e] |}).

Definition user_data_get (key : string) : M World (option string) :=
  fun w => (Ok (user_data w !! key), w).

Definition user_data_set (key value : string) : M World unit :=
  fun w => (Ok tt, {| user_data := <[key := value]> (user_data w); http := http w; chat := chat w |}).

(** [update.callback_query.edit_message_text(text, reply_markup=...)] *)
Definition edit_message_text (update : Update) (text : string)
    (reply_markup : option InlineKeyboardMarkup) : M World unit :=
  match callback_query update with
  | Some _ => chat_emit (EditMessageText text reply_markup)
  | None => raise AttributeError
  end.

(** [update.callback_query.message.reply_text(text, reply_markup=...)] *)
Definition query_message_reply_text (update : Update) (text : string)
    (reply_markup : option InlineKeyboardMarkup) : M World unit :=
  match callback_query update with
  | Some _ => chat_emit (ReplyText text reply_markup)
  | None => raise AttributeError
  end.

(** [update.message.reply_text(text, reply_markup=...)] *)
Definition message_reply_text (update : Update) (text : string)
    (reply_markup : option InlineKeyboardMarkup) : M World unit :=
  match update with
  | Message _ => chat_emit (ReplyText text reply_markup)
  | CallbackQuery _ | OtherUpdate => raise AttributeError
  end.

(** ** Menus *)

Definition show_main_menu (update : Update) (is_comparing : bool) : M World unit :=
  let keyboard :=
    [ [{| text := "Top 100 Cryptocurrencies"; callback_data := "top100" |}];
      [{| text := "Trending Cryptocurrencies"; callback_data := "trending" |}];
      [{| text := "Search Cryptocurrency"; callback_data := "search" |}];
      [{| text := "Quit"; callback_data := "quit" |}] ] in
  let text :=
    if negb is_comparing
    then "Welcome to the Crypto Price Bot! What would you like to do?"
    else "Select a cryptocurrency to compare." in
  match callback_query update with
  | Some _ => edit_message_text update text (Some keyboard)
  | None => message_reply_text update text (Some keyboard)
  end.

Definition start (update : Update) : M World (option nat) :=
  show_main_menu update false ;;;
  ret (Some MAIN_MENU).

(** The button of one entry of the list, the body of the inner loop of
    [show_crypto_list]. *)
Definition crypto_button `{PyText} (crypto : json) : outcome InlineKeyboardButton :=
  let? name := dict_get crypto "name" (JStr "Unknown") in
  let? symbol := dict_get crypto "symbol" (JStr "Unknown") in
  let? crypto_id := dict_get crypto "id" (JStr "unknown") in
  let? symbol_upper := str_upper symbol in
  Ok {| text := py_str name +:+ " (" +:+ symbol_upper +:+ ")";
        callback_data := "crypto:" +:+ py_str crypto_id |}.

(** One row: the buttons of [cryptos[i:i+2]]. *)
Definition crypto_row `{PyText} (cryptos : json) (i : nat) : outcome (list InlineKeyboardButton) :=
  let? part := slice cryptos i (i + 2) in
  omap_list crypto_button part.

Definition back_row : list InlineKeyboardButton :=
  [{| text := "Back to Main Menu"; callback_data := "main_menu" |}].

Definition show_crypto_list `{PyText} (update : Update) (cryptos : json) (title : string)
    : M World unit :=
  let* n := lift (len cryptos) in
  let* rows := lift (omap_list (crypto_row cryptos) (range 0 n 2)) in
  let keyboard := rows ++ [back_row] in
  edit_message_text update title (Some keyboard).

Definition details_keyboard : InlineKeyboardMarkup :=
  [ [{| text := "Compare with another Cryptocurrency"; callback_data := "compare_selection" |}];
    [{| text := "Main Menu"; callback_data := "main_menu" |}];
    [{| text := "Quit"; callback_data := "quit" |}] ].

Definition show_crypto_details `{PyText} (update : Update) (crypto_id currency : string)
    : M World unit :=
  let* details := run_http (get_crypto_details crypto_id currency) in
  if truthy details then
    let* price := lift (dict_get details currency (JStr "N/A")) in
    let* change_24h := lift (dict_get details (currency +:+ "_24h_change") (JStr "N/A")) in
    let* market_cap := lift (dict_get details (currency +:+ "_market_cap") (JStr "N/A")) in
    let* trading_volume := lift (dict_get details (currency +:+ "_24h_vol") (JStr "N/A")) in
    let message :=
      "💰 " +:+ capitalize crypto_id +:+ " (" +:+ upper currency +:+ ")" +:+ LF +:+
      "Price: " +:+ py_str price +:+ " " +:+ upper currency +:+ LF +:+
      "24h Change: " +:+ py_str change_24h +:+ "%" +:+ LF +:+
      "Market Cap: " +:+ py_str market_cap +:+ " " +:+ upper currency +:+ LF +:+
      "24h Trading Volume: " +:+ py_str trading_volume +:+ " " +:+ upper currency +:+ LF +:+ LF in
    edit_message_text update message None ;;;
    query_message_reply_text update "Select an option:" (Some details_keyboard)
  else
    edit_message_text update "🚫 Unable to retrieve cryptocurrency details." None.

Definition show_currency_options `{PyText} (update : Update) : M World unit :=
  let keyboard :=
    ((fun currency =>
        [{| text := upper currency; callback_data := "currency:" +:+ currency |}])
       <$> SUPPORTED_CURRENCIES)
    ++ [back_row] in
  edit_message_text update "Choose a currency:" (Some keyboard).

(** ** The button handler *)

(** [not v] for what [user_data.get('crypto')] gives: [None] or a string,
    which is false when empty. *)
Definition py_not (v : option string) : bool :=
  match v with
  | None => true
  | Some s => bool_decide (s = "")
  end.

Definition button_click `{PyText} (update : Update) : M World (option nat) :=
  match callback_query update with
  | None => raise AttributeError
  | Some data =>
      chat_emit Answer ;;;
      if bool_decide (data = "main_menu") then
        show_main_menu update false ;;;
        ret (Some MAIN_MENU)
      else if bool_decide (data = "top100") then
        edit_message_text update "Fetching top cryptocurrencies, please wait..." None ;;;
        let* cryptos := run_http (get_top_cryptos 100) in
        show_crypto_list update cryptos "Top 100 Cryptocurrencies:" ;;;
        ret (Some CHOOSING_CRYPTO)
      else if bool_decide (data = "quit") then
        edit_message_text update "You can return to the main menu anytime by using /start." None ;;;
        ret (Some MAIN_MENU)
      else if bool_decide (data = "trending") then
        edit_message_text update "Fetching trending cryptocurrencies, please wait..." None ;;;
        let* cryptos := run_http get_trending_cryptos in
        show_crypto_list update cryptos "Trending Cryptocurrencies:" ;;;
        ret (Some CHOOSING_CRYPTO)
      else if bool_decide (data = "search") then
        edit_message_text update "Please enter the name of the cryptocurrency you want to check:" None ;;;
        ret (Some TYPING_SEARCH)
      else if startswith data "crypto:" then
        let* chosen := lift (index (split ":"%char data) 1) in
        user_data_set "crypto" chosen ;;;
        show_currency_options update ;;;
        ret (Some CHOOSING_CURRENCY)
      else if startswith data "currency:" then
        let* currency := lift (index (split ":"%char data) 1) in
        let* stored := user_data_get "crypto" in
        let crypto_id := default "bitcoin" stored in
        show_crypto_details update crypto_id currency ;;;
        ret (Some COMPARE_SELECTION)
      else if bool_decide (data = "compare_selection") then
        let* crypto_id := user_data_get "crypto" in
        if py_not crypto_id then
          edit_message_text update "Please select a cryptocurrency before comparing." None ;;;
          ret None
        else
          edit_message_text update "Fetching top 100 currencies for comparison, please wait..." None ;;;
          let* cryptos := run_http (get_top_cryptos 100) in
          show_crypto_list update cryptos
            ("Compare " +:+ default "None" crypto_id +:+ " with another currency:") ;;;
          ret (Some CHOOSING_CURRENCY)
      else
        edit_message_text update "Invalid selection. Returning to main menu." None ;;;
        show_main_menu update false ;;;
        ret (Some MAIN_MENU)
  end.

(** ** Vocabulary of the statements about the fetch helper *)

(** How the body of the [try] ends on a reply: a client or server error
    status raises [HTTPError] (the transient case, retried); a reply with
    another status and a JSON body is decoded; everything else raises
    another exception. *)
Definition transient (rp : reply) : bool :=
  match rp with
  | Response st _ => bool_decide (400 <= st < 600)%Z
  | ConnectionFailed => false
  end.

Definition decoded (rp : reply) : option json :=
  match rp with
  | Response st (Some j) => if bool_decide (400 <= st < 600)%Z then None else Some j
  | _ => None
  end.

Definition non_transient (rp : reply) : bool :=
  match rp with
  | ConnectionFailed => true
  | Response st None => negb (bool_decide (400 <= st < 600)%Z)
  | Response _ (Some _) => false
  end.

(** The state of the HTTP side after [k] attempts that each ended in an
    [HTTPError]. *)
Definition after_failures (k : nat) (r : request) (h : Http) : Http :=
  {| net := net h;
     sent := sent h + k;
     http_log := http_log h ++ concat (replicate k [Get r; LogWarning; Sleep 2]) |}.

(** ** Vocabulary of the statements about the menus *)

(** An asset record, as the list renderer needs it: a JSON object whose
    [symbol], when there is one, is a string. *)
Definition asset_record (v : json) : bool :=
  match v with
  | JObj m =>
      match m !! "symbol" with
      | Some (JStr _) | None => true
      | Some _ => false
      end
  | _ => false
  end.

(** A list cut into consecutive pairs, the last piece being a single
    element when the length is odd. *)
Fixpoint pairs {A} (l : list A) : list (list A) :=
  match l with
  | [] => []
  | [x] => [[x]]
  | x :: y :: l' => [x; y] :: pairs l'
  end.

(** The requests of an HTTP log, in order. *)
Definition gets (log : list http_event) : list request :=
  omap (fun e => match e with Get r => Some r | _ => None end) log.

(** Whether the character [c] occurs in [s]. *)
Fixpoint has_char (c : ascii) (s : string) : bool :=
  match s with
  | EmptyString => false
  | String a s' => bool_decide (a = c) || has_char c s'
  end.

(** The state after the handler has acknowledged the button press. *)
Definition answered (w : World) : World :=
  {| user_data := user_data w; http := http w; chat := chat w ++ [Answer] |}.

(** No asset is chosen: nothing is stored under ['crypto'], or the empty
    string is (which [not crypto_id] does not tell apart). *)
Definition no_asset (ud : gmap string string) : Prop :=
  ud !! "crypto" = None \/ ud !! "crypto" = Some "".

(** The values that the list renderer can turn into a keyboard: a list of
    asset records, or a string or a record with nothing in it. *)
Definition renderable (v : json) : bool :=
  match v with
  | JArr l => forallb asset_record l
  | JStr s => bool_decide (s = "")
  | JObj m => bool_decide (m = ∅)
  | _ => false
  end.

(** The documents that the event with payload [data] fetches in the world
    [w] have the shape that its renderer expects: the list that "Top 100",
    "Trending" or "Compare" (with an asset chosen) fetches is renderable,
    and the quote that a currency selection fetches is a record or counts
    as false.  Nothing is asked of the endpoints that the event does not
    fetch from, and nothing at all for a payload that fetches nothing. *)
Definition event_documents_render (data : string) (w : World) : Prop :=
  ((data = "top100" \/ (data = "compare_selection" /\ ~ no_asset (user_data w))) ->
   forall v h', get_top_cryptos 100 (http w) = (Ok v, h') -> renderable v = true) /\
  (data = "trending" ->
   forall v h', get_trending_cryptos (http w) = (Ok v, h') -> renderable v = true) /\
  (startswith data "currency:" = true ->
   forall currency v h',
     index (split ":" data) 1 = Ok currency ->
     get_crypto_details (default "bitcoin" (user_data w !! "crypto")) currency (http w)
       = (Ok v, h') ->
     truthy v = true -> exists m, v = JObj m).

(** A handler step that leaves [context.user_data] as it found it,
    whether it returns or raises. *)
Definition keeps_user_data {A} (m : M World A) : Prop :=
  forall w, user_data (snd (m w)) = user_data w.

(** What the quote message shows for the field [key] of the record [m]:
    the field's value as [str] prints it, or the marker when the field is
    missing. *)
Definition shown `{PyText} (m : gmap string json) (key : string) : string :=
  match m !! key with
  | Some v => py_str v
  | None => "N/A"
  end.



(** ** A runtime for ASCII text

    Case mappings on the letters [a]-[z] and [A]-[Z], and a [repr] for the
    scalars.  It is used to run the handlers on concrete inputs. *)
Definition ascii_upper_char (c : ascii) : ascii :=
  let n := nat_of_ascii c in
  if (97 <=? n) && (n <=? 122) then ascii_of_nat (n - 32) else c.

Definition ascii_lower_char (c : ascii) : ascii :=
  let n := nat_of_ascii c in
  if (65 <=? n) && (n <=? 90) then ascii_of_nat (n + 32) else c.

Fixpoint map_string (f : ascii -> ascii) (s : string) : string :=
  match s with
  | EmptyString => EmptyString
  | String c s' => String (f c) (map_string f s')
  end.

Definition ascii_text : PyText :=
  {| repr := fun v =>
       match v with
       | JNull => "None"
       | JBool true => "True"
       | JBool false => "False"
       | JInt z => pretty z
       | JFloat d => d
       | JStr s => s
       | JArr _ => "[...]"
       | JObj _ => "{...}"
       end;
     upper := map_string ascii_upper_char;
     capitalize := fun s =>
       match s with
       | EmptyString => EmptyString
       | String c s' => String (ascii_upper_char c) (map_string ascii_lower_char s')
       end |}.

(** ** Concrete networks and documents *)

(** A network that answers the first four requests with status 503 and
    every later one with an empty JSON list. *)
Definition flaky_http : Http :=
  {| net := fun n _ => if n <? 4 then Response 503 None else Response 200 (Some (JArr []));
     sent := 0;
     http_log := [] |}.

(** A network that answers every request at once with the document [j]. *)
Definition steady_http (j : json) : Http :=
  {| net := fun _ _ => Response 200 (Some j); sent := 0; http_log := [] |}.

Definition fresh_world (ud : gmap string string) (h : Http) : World :=
  {| user_data := ud; http := h; chat := [] |}.

Definition asset (id name symbol : string) : json :=
  JObj (<["id" := JStr id]> (<["name" := JStr name]> (<["symbol" := JStr symbol]> ∅))).

Definition two_assets : json :=
  JArr [asset "bitcoin" "Bitcoin" "btc"; asset "ethereum" "Ethereum" "eth"].

(** A reply of the shape the trending endpoint documents: a record whose
    [coins] field lists the trending assets, each wrapped in an [item]. *)
Definition trending_reply : json :=
  JObj (<["coins" := JArr [JObj (<["item" := asset "bitcoin" "Bitcoin" "btc"]> ∅)]]> ∅).

(** A quote record with a price and a 24h change, and no market cap. *)
Definition usd_quote : gmap string json :=
  <["usd" := JInt 67000]> (<["usd_24h_change" := JFloat "1.5"]> ∅).

(** A network that answers the quote endpoint with [usd_quote] and every
    other endpoint with [two_assets]. *)
Definition market_http : Http :=
  {| net := fun _ r =>
       if bool_decide (url r = COINGECKO_API_URL +:+ "/simple/price")
       then Response 200 (Some (JObj usd_quote))
       else Response 200 (Some two_assets);
     sent := 0;
     http_log := [] |}.

(** ** Vocabulary of the further statements *)

(** The seconds slept according to an HTTP log. *)
Definition slept (log : list http_event) : nat :=
  sum_list (omap (fun e => match e with Sleep n => Some n | _ => None end) log).

(** The log of one attempt that ended in an [HTTPError]. *)
Definition failed_attempt (r : request) : list http_event :=
  [Get r; LogWarning; Sleep 2].

(** A network on which every request gets status 503, and one on which
    no request gets through. *)
Definition overloaded_http : Http :=
  {| net := fun _ _ => Response 503 None; sent := 0; http_log := [] |}.

Definition dead_http : Http :=
  {| net := fun _ _ => ConnectionFailed; sent := 0; http_log := [] |}.

(** The payloads for which the handler has a branch of its own. *)
Definition recognised (data : string) : bool :=
  bool_decide (data ∈ ["main_menu"; "top100"; "quit"; "trending"; "search"; "compare_selection"])
  || startswith data "crypto:" || startswith data "currency:".

(** The buttons of a message sent to the chat, if it has a keyboard. *)
Definition buttons_of (e : chat_event) : list InlineKeyboardButton :=
  match e with
  | EditMessageText _ (Some keyboard) | ReplyText _ (Some keyboard) => concat keyboard
  | _ => []
  end.

(** The text of a message sent to the chat, if it is one. *)
Definition text_of (e : chat_event) : option string :=
  match e with
  | EditMessageText t _ | ReplyText t _ => Some t
  | Answer => None
  end.

(** A handler step that only appends to the chat transcript, and only
    events that satisfy [Q]. *)
Definition emits (Q : chat_event -> Prop) {A} (m : M World A) : Prop :=
  forall w, exists evs, chat (snd (m w)) = chat w ++ evs /\ Forall Q evs.

(** A handler step that leaves the HTTP side as it found it. *)
Definition keeps_http {A} (m : M World A) : Prop :=
  forall w, http (snd (m w)) = http w.

(** The keyboard of the main menu. *)
Definition main_menu_keyboard : InlineKeyboardMarkup :=
  [ [{| text := "Top 100 Cryptocurrencies"; callback_data := "top100" |}];
    [{| text := "Trending Cryptocurrencies"; callback_data := "trending" |}];
    [{| text := "Search Cryptocurrency"; callback_data := "search" |}];
    [{| text := "Quit"; callback_data := "quit" |}] ].

Definition welcome_text : string :=
  "Welcome to the Crypto Price Bot! What would you like to do?".

(** Every button of a message carries a payload that the handler has a
    branch for. *)
Definition recognised_buttons (e : chat_event) : Prop :=
  Forall (fun b => recognised (callback_data b) = true) (buttons_of e).

Definition invalid_notice : string := "Invalid selection. Returning to main menu.".

Definition not_invalid_notice (e : chat_event) : Prop :=
  text_of e <> Some invalid_notice.

(** The payloads that make the handler fetch, given the dictionary: the
    two lists, a currency selection, and "Compare" once an asset is
    chosen. *)
Definition fetching (data : string) (ud : gmap string string) : bool :=
  bool_decide (data = "top100") || bool_decide (data = "trending")
  || startswith data "currency:"
  || (bool_decide (data = "compare_selection") && negb (py_not (ud !! "crypto"))).

Definition markets_request : request :=
  {| url := COINGECKO_API_URL +:+ "/coins/markets";
     params := Some (get_top_cryptos_params 100) |}.

Definition trending_request : request :=
  {| url := COINGECKO_API_URL +:+ "/search/trending"; params := None |}.

Definition quote_request (crypto_id currency : string) : request :=
  {| url := COINGECKO_API_URL +:+ "/simple/price";
     params := Some (get_crypto_details_params crypto_id currency) |}.

(** * Properties of the fetch helper *)

Lemma Http_eq (h1 h2 : Http) :
  net h1 = net h2 -> sent h1 = sent h2 -> http_log h1 = http_log h2 -> h1 = h2.
Proof. destruct h1, h2; simpl; intros; subst; reflexivity. Qed.

Lemma loop_step_transient a rest r h :
  transient (net h (sent h) r) = true ->
  make_api_request_loop (a :: rest) r h =
  make_api_request_loop rest r (after_failures 1 r h).
Proof.
  intros Ht. simpl. unfold try_except, bind, requests_get at 1.
  destruct (net h (sent h) r) as [|st b]; [discriminate|].
  simpl in Ht. unfold raise_for_status. simpl. rewrite Ht. simpl.
  f_equal. apply Http_eq; simpl; [reflexivity|lia|].
  rewrite <- !app_assoc. reflexivity.
Qed.

Lemma loop_step_decoded a rest r h j :
  decoded (net h (sent h) r) = Some j ->
  make_api_request_loop (a :: rest) r h =
  (Ok j, {| net := net h; sent := S (sent h); http_log := http_log h ++ [Get r] |}).
Proof.
  intros Hd. simpl. unfold try_except, bind, requests_get at 1.
  destruct (net h (sent h) r) as [|st [b|]]; simpl in Hd; try discriminate.
  unfold raise_for_status. simpl.
  destruct (bool_decide (400 <= st < 600)%Z); [discriminate|].
  simpl. congruence.
Qed.

Lemma loop_step_non_transient a rest r h :
  non_transient (net h (sent h) r) = true ->
  make_api_request_loop (a :: rest) r h =
  (Ok py_None,
   {| net := net h; sent := S (sent h); http_log := http_log h ++ [Get r; LogError] |}).
Proof.
  intros Hn. simpl. unfold try_except, bind, requests_get at 1.
  destruct (net h (sent h) r) as [|st [b|]]; simpl in Hn; try discriminate.
  - simpl. rewrite <- app_assoc. reflexivity.
  - unfold raise_for_status. simpl.
    destruct (bool_decide (400 <= st < 600)%Z); [discriminate|].
    simpl. rewrite <- app_assoc. reflexivity.
Qed.

Lemma after_failures_S k r h :
  after_failures (S k) r h = after_failures k r (after_failures 1 r h).
Proof.
  apply Http_eq; simpl; [reflexivity|lia|].
  rewrite <- !app_assoc. reflexivity.
Qed.

Lemma after_failures_0 r h : after_failures 0 r h = h.
Proof. apply Http_eq; simpl; [reflexivity|lia|apply app_nil_r]. Qed.

Lemma loop_after_transients k : forall attempts r h,
  k <= length attempts ->
  (forall i, i < k -> transient (net h (sent h + i) r) = true) ->
  make_api_request_loop attempts r h =
  make_api_request_loop (drop k attempts) r (after_failures k r h).
Proof.
  induction k as [|k IH]; intros attempts r h Hlen Ht.
  - rewrite after_failures_0, drop_0. reflexivity.
  - destruct attempts as [|a rest]; simpl in Hlen; [lia|].
    rewrite loop_step_transient.
    2:{ specialize (Ht 0). rewrite Nat.add_0_r in Ht. apply Ht. lia. }
    rewrite (after_failures_S k). simpl drop. apply IH; [lia|].
    intros i Hi. simpl. specialize (Ht (S i)).
    replace (sent h + 1 + i) with (sent h + S i) by lia. apply Ht. lia.
Qed.

(** The helper never raises: every exception of the [try] body is caught. *)
Lemma make_api_request_loop_returns attempts : forall r h,
  exists v h', make_api_request_loop attempts r h = (Ok v, h').
Proof.
  induction attempts as [|a rest IH]; intros r h; simpl.
  - eexists _, _. reflexivity.
  - unfold try_except, bind, requests_get at 1.
    destruct (net h (sent h) r) as [|st b]; simpl.
    + eexists _, _. reflexivity.
    + unfold raise_for_status. simpl.
      destruct (bool_decide (400 <= st < 600)%Z); simpl.
      * apply IH.
      * unfold response_json. simpl. destruct b; simpl; eexists _, _; reflexivity.
Qed.

(** C1.  The fetch helper, on the replies the network gives to its
    successive attempts: it always returns a value and never raises; after
    [k < 5] attempts that fail with an HTTP error status, an attempt that
    decodes returns the decoded document at once (with [k = 4]: four
    failures, then the fifth attempt's result); an attempt that fails in
    another way returns [None] at once, without further attempts; five HTTP
    failures in a row return [None] after exactly five attempts. *)
Theorem make_api_request_retry (u : string) (ps : option (gmap string json)) (h : Http) :
  let r := {| url := u; params := ps |} in
  let nth_reply := fun i => net h (sent h + i) r in
  (exists v h', make_api_request u ps h = (Ok v, h')) /\
  (forall k j, k < 5 ->
     (forall i, i < k -> transient (nth_reply i) = true) ->
     decoded (nth_reply k) = Some j ->
     exists h', make_api_request u ps h = (Ok j, h') /\ sent h' = sent h + k + 1) /\
  (forall k, k < 5 ->
     (forall i, i < k -> transient (nth_reply i) = true) ->
     non_transient (nth_reply k) = true ->
     exists h', make_api_request u ps h = (Ok py_None, h') /\ sent h' = sent h + k + 1) /\
  ((forall i, i < 5 -> transient (nth_reply i) = true) ->
     exists h', make_api_request u ps h = (Ok py_None, h') /\ sent h' = sent h + 5).
Proof.
  intros r nth_reply. unfold make_api_request. fold r.
  split; [apply make_api_request_loop_returns|].
  split; [|split].
  - intros k j Hk Ht Hd.
    rewrite (loop_after_transients k) by (rewrite ?length_seq; auto with lia).
    destruct (drop k (seq 0 5)) as [|a rest] eqn:Hdrop.
    { apply (f_equal length) in Hdrop. rewrite length_drop, length_seq in Hdrop.
      simpl in Hdrop. lia. }
    rewrite (loop_step_decoded a rest r _ j) by exact Hd.
    eexists. split; [reflexivity|]. simpl. lia.
  - intros k Hk Ht Hn.
    rewrite (loop_after_transients k) by (rewrite ?length_seq; auto with lia).
    destruct (drop k (seq 0 5)) as [|a rest] eqn:Hdrop.
    { apply (f_equal length) in Hdrop. rewrite length_drop, length_seq in Hdrop.
      simpl in Hdrop. lia. }
    rewrite (loop_step_non_transient a rest r _) by exact Hn.
    eexists. split; [reflexivity|]. simpl. lia.
  - intros Ht.
    rewrite (loop_after_transients 5) by (rewrite ?length_seq; auto with lia).
    simpl drop. simpl make_api_request_loop. unfold ret.
    eexists. split; [reflexivity|]. reflexivity.
Qed.

Lemma make_api_request_retry_witness :
  exists h', make_api_request "u" None flaky_http = (Ok (JArr []), h') /\ sent h' = 5.
Proof.
  destruct (make_api_request_retry "u" None flaky_http) as (_ & H & _).
  apply (H 4 (JArr [])).
  - lia.
  - intros i Hi. simpl.
    destruct i as [|[|[|[|i]]]]; [reflexivity..|lia].
  - reflexivity.
Defined.

Lemma gets_app (l1 l2 : list http_event) : gets (l1 ++ l2) = gets l1 ++ gets l2.
Proof. apply omap_app. Qed.

(** Every request that the helper sends is the one it was called with;
    it sends at least one and at most five. *)
Lemma make_api_request_loop_gets attempts : forall r h,
  exists v h' n,
    make_api_request_loop attempts r h = (Ok v, h') /\
    n <= length attempts /\ (attempts <> [] -> 1 <= n) /\
    sent h' = sent h + n /\ net h' = net h /\
    gets (http_log h') = gets (http_log h) ++ replicate n r.
Proof.
  induction attempts as [|a rest IH]; intros r h.
  - exists py_None, h, 0. simpl. rewrite app_nil_r.
    repeat split; try reflexivity; try lia. congruence.
  - destruct (transient (net h (sent h) r)) eqn:Ht.
    + rewrite (loop_step_transient a rest r h Ht).
      destruct (IH r (after_failures 1 r h)) as (v & h' & n & E & Hn & _ & Hs & Hnet & Hg).
      assert (Hg1 : gets (http_log (after_failures 1 r h)) = gets (http_log h) ++ [r]).
      { unfold after_failures. cbn [http_log]. rewrite gets_app. reflexivity. }
      exists v, h', (S n). rewrite E, Hg, Hg1, Hs, Hnet, <- app_assoc.
      cbn [after_failures sent net length].
      repeat split; try lia; reflexivity.
    + destruct (decoded (net h (sent h) r)) as [j|] eqn:Hd.
      * rewrite (loop_step_decoded a rest r h j Hd).
        eexists j, _, 1. split; [reflexivity|].
        cbn [sent net http_log length]. rewrite gets_app.
        repeat split; try lia; reflexivity.
      * assert (Hn : non_transient (net h (sent h) r) = true).
        { destruct (net h (sent h) r) as [|st [b|]]; simpl in *; try reflexivity;
            destruct (bool_decide (400 <= st < 600)%Z); simpl in *; congruence. }
        rewrite (loop_step_non_transient a rest r h Hn).
        eexists py_None, _, 1. split; [reflexivity|].
        cbn [sent net http_log length]. rewrite gets_app.
        repeat split; try lia; reflexivity.
Qed.

Lemma make_api_request_gets (u : string) (ps : option (gmap string json)) (h : Http) :
  exists v h' n,
    make_api_request u ps h = (Ok v, h') /\ 1 <= n <= 5 /\
    sent h' = sent h + n /\ net h' = net h /\
    gets (http_log h') = gets (http_log h) ++ replicate n {| url := u; params := ps |}.
Proof.
  unfold make_api_request.
  destruct (make_api_request_loop_gets (seq 0 5) {| url := u; params := ps |} h)
    as (v & h' & n & E & Hn & Hpos & Hs & Hnet & Hg).
  exists v, h', n. rewrite length_seq in Hn.
  repeat split; try assumption. apply Hpos. discriminate.
Qed.

(** C4.  The parameters that the quote fetch sends: the 24h-change flag
    and the market-cap flag are set, the 24h-volume flag is not among
    them; every request of the fetch carries exactly these parameters. *)
Theorem get_crypto_details_flags (crypto_id currency : string) (h : Http) :
  let ps := get_crypto_details_params crypto_id currency in
  ps !! "include_24hr_change" = Some (JStr "true") /\
  ps !! "include_market_cap" = Some (JStr "true") /\
  ps !! "include_24hr_vol" = None /\
  dom ps = {["ids"; "vs_currencies"; "include_24hr_change"; "include_market_cap"]} /\
  exists v h' n,
    get_crypto_details crypto_id currency h = (Ok v, h') /\ 1 <= n /\
    gets (http_log h') =
      gets (http_log h) ++
      replicate n {| url := COINGECKO_API_URL +:+ "/simple/price"; params := Some ps |}.
Proof.
  intros ps. subst ps.
  split; [reflexivity|]. split; [reflexivity|]. split; [reflexivity|].
  split.
  - unfold get_crypto_details_params. rewrite !dom_insert_L, dom_empty_L. set_solver.
  - unfold get_crypto_details.
    destruct (make_api_request_gets (COINGECKO_API_URL +:+ "/simple/price")
                (Some (get_crypto_details_params crypto_id currency)) h)
      as (v & h' & n & E & Hn & _ & _ & Hg).
    exists v, h', n. split; [exact E|]. split; [lia|exact Hg].
Qed.

(** * Payloads: prefix test and split *)

Lemma startswith_app (s pre : string) :
  startswith s pre = true -> exists rest, s = pre +:+ rest.
Proof.
  revert s. induction pre as [|a pre IH]; intros s E; simpl in E.
  - exists s. reflexivity.
  - destruct s as [|b s]; [discriminate|].
    apply andb_true_iff in E as [Eab Es].
    apply bool_decide_eq_true in Eab as ->.
    destruct (IH s Es) as [rest ->]. exists rest. reflexivity.
Qed.

Lemma startswith_app_true (pre rest : string) : startswith (pre +:+ rest) pre = true.
Proof.
  induction pre as [|a pre IH]; simpl; [reflexivity|].
  rewrite IH, bool_decide_eq_true_2; reflexivity.
Qed.

Lemma split_nonempty (sep : ascii) (s : string) :
  exists piece pieces, split sep s = piece :: pieces.
Proof.
  induction s as [|c s (p & ps & IH)]; simpl.
  - eexists _, _. reflexivity.
  - case_bool_decide; [eexists _, _; reflexivity|].
    rewrite IH. eexists _, _. reflexivity.
Qed.

Lemma split_no_sep (sep : ascii) (s : string) :
  has_char sep s = false -> split sep s = [s].
Proof.
  induction s as [|c s IH]; simpl; intros E; [reflexivity|].
  apply orb_false_iff in E as [Ec Es].
  rewrite Ec, (IH Es). reflexivity.
Qed.

(** After a prefix without separator and one separator, the second piece
    is the first piece of what follows. *)
Lemma split_after_prefix (sep : ascii) (pre rest : string) :
  has_char sep pre = false ->
  split sep (pre +:+ String sep rest) = pre :: split sep rest.
Proof.
  induction pre as [|c pre IH]; simpl; intros E.
  - rewrite bool_decide_eq_true_2; reflexivity.
  - apply orb_false_iff in E as [Ec Es].
    rewrite Ec, (IH Es). reflexivity.
Qed.

Lemma index_split_crypto (rest : string) :
  exists chosen pieces,
    split ":" rest = chosen :: pieces /\
    index (split ":" ("crypto:" +:+ rest)) 1 = Ok chosen.
Proof.
  destruct (split_nonempty ":" rest) as (p & ps & E).
  exists p, ps. split; [exact E|].
  change ("crypto:" +:+ rest) with ("crypto" +:+ String ":" rest).
  rewrite split_after_prefix by reflexivity. rewrite E. reflexivity.
Qed.

Lemma index_split_currency (rest : string) :
  exists currency pieces,
    split ":" rest = currency :: pieces /\
    index (split ":" ("currency:" +:+ rest)) 1 = Ok currency.
Proof.
  destruct (split_nonempty ":" rest) as (p & ps & E).
  exists p, ps. split; [exact E|].
  change ("currency:" +:+ rest) with ("currency" +:+ String ":" rest).
  rewrite split_after_prefix by reflexivity. rewrite E. reflexivity.
Qed.

Lemma currency_not_crypto (data : string) :
  startswith data "currency:" = true -> startswith data "crypto:" = false.
Proof.
  intros E. apply startswith_app in E as [rest ->]. reflexivity.
Qed.

(** * Properties of the asset list *)

Lemma omap_list_fmap {A B C} (f : B -> outcome C) (g : A -> B) (l : list A) :
  omap_list f (g <$> l) = omap_list (fun x => f (g x)) l.
Proof. induction l as [|x l IH]; csimpl; [reflexivity|]. rewrite IH. reflexivity. Qed.

Lemma omap_list_ext {A B} (f g : A -> outcome B) (l : list A) :
  (forall x, f x = g x) -> omap_list f l = omap_list g l.
Proof. intros E. induction l as [|x l IH]; simpl; [reflexivity|]. rewrite E, IH. reflexivity. Qed.

Lemma omap_list_length {A B} (f : A -> outcome B) (l : list A) bs :
  omap_list f l = Ok bs -> length bs = length l.
Proof.
  revert bs. induction l as [|x l IH]; simpl; intros bs E.
  - injection E as <-. reflexivity.
  - destruct (f x); simpl in E; [|discriminate].
    destruct (omap_list f l); simpl in E; [|discriminate].
    injection E as <-. simpl. f_equal. apply IH. reflexivity.
Qed.

(** Induction two elements at a time. *)
Lemma list_pair_ind {A} (P : list A -> Prop) :
  P [] -> (forall x, P [x]) -> (forall x y l, P l -> P (x :: y :: l)) ->
  forall l, P l.
Proof.
  intros H0 H1 H2 l.
  assert (P l /\ forall x, P (x :: l)) as [H _]; [|exact H].
  induction l as [|y l [IHa IHb]]; split; auto.
Qed.




(** The slices [l[i:i+2]] for [i] in [range(0, len(l), 2)] are the pairs
    of [l]. *)
Lemma slices_are_pairs {A} (l : list A) :
  (fun i => take (i + 2 - i) (drop i l)) <$> range 0 (length l) 2 = pairs l.
Proof.
  unfold range. rewrite Nat.sub_0_r. simpl (2 - 1).
  rewrite <- list_fmap_compose.
  induction l as [|x|x y l IH] using list_pair_ind; [reflexivity..|].
  simpl length.
  replace (S (S (length l)) + 1) with ((length l + 1) + 1 * 2) by lia.
  rewrite Nat.div_add by lia.
  replace ((length l + 1) / 2 + 1) with (S ((length l + 1) / 2)) by lia.
  simpl seq. rewrite <- fmap_S_seq, fmap_cons, <- list_fmap_compose.
  simpl pairs. f_equal. rewrite <- IH.
  apply list_fmap_ext. intros _ k _. simpl.
  replace (k * 2 + 2 - k * 2) with 2 by lia.
  replace (S (S (k * 2 + 2)) - S (S (k * 2))) with 2 by lia.
  reflexivity.
Qed.

Lemma omap_list_pairs {A B} (f : A -> outcome B) (l : list A) bs :
  omap_list f l = Ok bs ->
  omap_list (omap_list f) (pairs l) = Ok (pairs bs).
Proof.
  revert bs. induction l as [|x|x y l IH] using list_pair_ind; intros bs E.
  - injection E as <-. reflexivity.
  - simpl in *. destruct (f x); simpl in *; [|discriminate].
    injection E as <-. reflexivity.
  - simpl in E. simpl pairs. simpl omap_list.
    destruct (f x); simpl in *; [|discriminate].
    destruct (f y); simpl in *; [|discriminate].
    destruct (omap_list f l) as [bs'|]; simpl in *; [|discriminate].
    injection E as <-. rewrite (IH bs' eq_refl). reflexivity.
Qed.

Lemma crypto_button_asset_record `{PyText} (crypto : json) :
  asset_record crypto = true -> exists b, crypto_button crypto = Ok b.
Proof.
  destruct crypto as [| | | | | |m]; try discriminate. simpl.
  unfold crypto_button. simpl.
  destruct (m !! "symbol") as [[]|]; try discriminate; intros _; eexists; reflexivity.
Qed.

Lemma crypto_buttons_asset_records `{PyText} (l : list json) :
  forallb asset_record l = true -> exists bs, omap_list crypto_button l = Ok bs.
Proof.
  induction l as [|x l IH]; simpl; intros E.
  - eexists. reflexivity.
  - apply andb_true_iff in E as [Ex El].
    destruct (crypto_button_asset_record x Ex) as [b ->].
    destruct (IH El) as [bs ->]. eexists. reflexivity.
Qed.

(** The rows that the list renderer builds from a JSON list are the
    pairs of the entries' buttons. *)
Lemma crypto_rows_pairs `{PyText} (l : list json) bs :
  omap_list crypto_button l = Ok bs ->
  omap_list (crypto_row (JArr l)) (range 0 (length l) 2) = Ok (pairs bs).
Proof.
  intros E. rewrite <- (omap_list_pairs _ _ _ E), <- slices_are_pairs.
  rewrite omap_list_fmap. reflexivity.
Qed.

(** The message that the list renderer sends for a JSON list whose
    entries all have a button. *)
Lemma show_crypto_list_pairs `{PyText} (data title : string) (l : list json) bs (w : World) :
  omap_list crypto_button l = Ok bs ->
  show_crypto_list (CallbackQuery data) (JArr l) title w =
    (Ok tt,
     {| user_data := user_data w;
        http := http w;
        chat := chat w ++ [EditMessageText title (Some (pairs bs ++ [back_row]))] |}).
Proof.
  intros Hbs. unfold show_crypto_list, bind, lift. cbn [len].
  rewrite (crypto_rows_pairs l bs Hbs). reflexivity.
Qed.





Lemma range_from_zero (n : nat) :
  exists rest, range 0 (S n) 2 = 0 :: rest.
Proof.
  unfold range. rewrite Nat.sub_0_r. simpl (2 - 1).
  destruct ((S n + 1) / 2) as [|k] eqn:E.
  - apply Nat.div_small_iff in E; lia.
  - eexists. reflexivity.
Qed.

(** A record that is not empty cannot be rendered as a list: its first
    slice raises, and nothing is sent. *)
Lemma show_crypto_list_record `{PyText} (update : Update) (title : string)
    (m : gmap string json) (w : World) :
  m <> ∅ ->
  show_crypto_list update (JObj m) title w = (Raise TypeError, w).
Proof.
  intros Hm. unfold show_crypto_list, bind, lift. cbn [len].
  destruct (size m) as [|n] eqn:E.
  - apply map_size_empty_iff in E. contradiction.
  - destruct (range_from_zero n) as [rest ->]. reflexivity.
Qed.

(** The unavailable outcome of a fetch cannot be rendered either. *)
Lemma show_crypto_list_None `{PyText} (update : Update) (title : string) (w : World) :
  show_crypto_list update py_None title w = (Raise TypeError, w).
Proof. reflexivity. Qed.

(** On a renderable value the list renderer sends one message whose
    keyboard ends with the back row, and returns. *)
Lemma show_crypto_list_on_renderable `{PyText} (data title : string) (v : json) (w : World) :
  renderable v = true ->
  exists rows,
    show_crypto_list (CallbackQuery data) v title w =
      (Ok tt,
       {| user_data := user_data w; http := http w;
          chat := chat w ++ [EditMessageText title (Some (rows ++ [back_row]))] |}).
Proof.
  intros Hv. destruct v as [| | | |s|l|m]; try discriminate Hv; simpl in Hv.
  - apply bool_decide_eq_true in Hv as ->. exists []. reflexivity.
  - destruct (crypto_buttons_asset_records l Hv) as [bs Hbs].
    exists (pairs bs). apply show_crypto_list_pairs. exact Hbs.
  - apply bool_decide_eq_true in Hv as ->. exists [].
    unfold show_crypto_list, bind, lift. cbn [len]. rewrite map_size_empty. reflexivity.
Qed.

(** * What the handlers write *)

Create HintDb keeps.

Lemma keeps_ret {A} (a : A) : keeps_user_data (ret a).
Proof. intros w. reflexivity. Qed.

Lemma keeps_raise {A} (e : exn) : keeps_user_data (@raise World A e).
Proof. intros w. reflexivity. Qed.

Lemma keeps_lift {A} (o : outcome A) : keeps_user_data (lift o).
Proof. intros w. reflexivity. Qed.

Lemma keeps_bind {A B} (m : M World A) (k : A -> M World B) :
  keeps_user_data m -> (forall a, keeps_user_data (k a)) -> keeps_user_data (bind m k).
Proof.
  intros Hm Hk w. unfold bind. specialize (Hm w).
  destruct (m w) as [[a|e] w1]; simpl in *; [|exact Hm].
  rewrite Hk. exact Hm.
Qed.

Lemma keeps_chat_emit (e : chat_event) : keeps_user_data (chat_emit e).
Proof. intros w. reflexivity. Qed.

Lemma keeps_run_http {A} (m : M Http A) : keeps_user_data (run_http m).
Proof. intros w. unfold run_http. destruct (m (http w)). reflexivity. Qed.

Lemma keeps_user_data_get (key : string) : keeps_user_data (user_data_get key).
Proof. intros w. reflexivity. Qed.

Lemma keeps_edit_message_text update text markup :
  keeps_user_data (edit_message_text update text markup).
Proof. intros w. unfold edit_message_text. destruct (callback_query update); reflexivity. Qed.

Lemma keeps_query_message_reply_text update text markup :
  keeps_user_data (query_message_reply_text update text markup).
Proof.
  intros w. unfold query_message_reply_text. destruct (callback_query update); reflexivity.
Qed.

Lemma keeps_message_reply_text update text markup :
  keeps_user_data (message_reply_text update text markup).
Proof. intros w. unfold message_reply_text. destruct update; reflexivity. Qed.

#[local] Hint Resolve keeps_ret keeps_raise keeps_lift keeps_chat_emit keeps_run_http
  keeps_user_data_get keeps_edit_message_text keeps_query_message_reply_text
  keeps_message_reply_text : keeps.

#[local] Ltac keeps :=
  repeat first
    [ progress auto with keeps
    | apply keeps_bind; [|intros ?]
    | match goal with
      | |- keeps_user_data (if ?b then _ else _) => destruct b
      | |- keeps_user_data (match ?o with Some _ => _ | None => _ end) => destruct o
      end ].

Lemma keeps_show_main_menu update is_comparing :
  keeps_user_data (show_main_menu update is_comparing).
Proof. unfold show_main_menu. keeps. Qed.

Lemma keeps_show_crypto_list `{PyText} update cryptos title :
  keeps_user_data (show_crypto_list update cryptos title).
Proof. unfold show_crypto_list. keeps. Qed.

Lemma keeps_show_crypto_details `{PyText} update crypto_id currency :
  keeps_user_data (show_crypto_details update crypto_id currency).
Proof. unfold show_crypto_details. keeps. Qed.

Lemma keeps_show_currency_options `{PyText} update :
  keeps_user_data (show_currency_options update).
Proof. unfold show_currency_options. keeps. Qed.

#[local] Hint Resolve keeps_show_main_menu keeps_show_crypto_list keeps_show_crypto_details
  keeps_show_currency_options : keeps.

(** * The button handler *)

(** A text message has no callback query: [query.answer()] raises. *)
Lemma button_click_message `{PyText} (text : string) (w : World) :
  button_click (Message text) w = (Raise AttributeError, w).
Proof. reflexivity. Qed.

(** Walks down the [if]/[elif] chain of the handler for a payload known
    through the hypothesis [E], closing the branches that [E] excludes. *)
#[local] Ltac skip_branches E :=
  repeat (let X := fresh "X" in
          case_bool_decide as X;
          [exfalso; rewrite X in E; vm_compute in E; discriminate E|clear X]).

(** Stepping through a handler: the first statement of a sequence, run
    in a given state. *)
Lemma bind_chat_emit {B} (e : chat_event) (k : unit -> M World B) (w : World) :
  bind (chat_emit e) k w =
  k tt {| user_data := user_data w; http := http w; chat := chat w ++ [e] |}.
Proof. reflexivity. Qed.

Lemma bind_lift_Ok {S A B} (a : A) (k : A -> M S B) (s : S) :
  bind (lift (Ok a)) k s = k a s.
Proof. reflexivity. Qed.

Lemma bind_lift_Raise {S A B} (e : exn) (k : A -> M S B) (s : S) :
  bind (lift (Raise e)) k s = (Raise e, s).
Proof. reflexivity. Qed.

Lemma bind_user_data_get {B} (key : string) (k : option string -> M World B) (w : World) :
  bind (user_data_get key) k w = k (user_data w !! key) w.
Proof. reflexivity. Qed.

Lemma bind_user_data_set {B} (key value : string) (k : unit -> M World B) (w : World) :
  bind (user_data_set key value) k w =
  k tt {| user_data := <[key := value]> (user_data w); http := http w; chat := chat w |}.
Proof. reflexivity. Qed.

Lemma bind_edit_message_text {B} data text markup (k : unit -> M World B) (w : World) :
  bind (edit_message_text (CallbackQuery data) text markup) k w =
  k tt {| user_data := user_data w; http := http w;
          chat := chat w ++ [EditMessageText text markup] |}.
Proof. reflexivity. Qed.

Lemma bind_run_http {A B} (m : M Http A) (k : A -> M World B) ud h c a h' :
  m h = (Ok a, h') ->
  bind (run_http m) k {| user_data := ud; http := h; chat := c |} =
  k a {| user_data := ud; http := h'; chat := c |}.
Proof. intros E. unfold bind, run_http. cbn [http]. rewrite E. reflexivity. Qed.

(** Enters the handler on a button press, up to the [if]/[elif] chain. *)
#[local] Ltac enter_click :=
  unfold button_click; cbv beta iota delta [callback_query];
  rewrite bind_chat_emit;
  match goal with
  | |- context [ {| user_data := user_data ?w; http := http ?w; chat := chat ?w ++ [Answer] |} ] =>
      fold (answered w)
  end.

(** Decides the tests of the [if]/[elif] chain on a payload that is a
    literal. *)
#[local] Ltac pick_branch :=
  repeat (let X := fresh "X" in
          case_bool_decide as X;
          [try discriminate X | try (exfalso; apply X; reflexivity)]);
  repeat match goal with
         | |- context [startswith ?s ?p] =>
             let b := eval vm_compute in (startswith s p) in
             change (startswith s p) with b
         end;
  cbv iota.

Lemma World_eq (w1 w2 : World) :
  user_data w1 = user_data w2 -> http w1 = http w2 -> chat w1 = chat w2 -> w1 = w2.
Proof. destruct w1, w2; simpl; intros; subst; reflexivity. Qed.

(** ** The branches that fetch a list *)

Lemma button_click_top100 `{PyText} (w : World) v h' :
  get_top_cryptos 100 (http w) = (Ok v, h') ->
  button_click (CallbackQuery "top100") w =
    (show_crypto_list (CallbackQuery "top100") v "Top 100 Cryptocurrencies:" ;;;
     ret (Some CHOOSING_CRYPTO))
      {| user_data := user_data w; http := h';
         chat := chat w ++
           [Answer; EditMessageText "Fetching top cryptocurrencies, please wait..." None] |}.
Proof.
  intros E. enter_click. pick_branch.
  rewrite bind_edit_message_text. cbn [answered user_data http chat].
  rewrite (bind_run_http _ _ _ _ _ _ _ E). rewrite <- app_assoc. reflexivity.
Qed.

Lemma button_click_trending `{PyText} (w : World) v h' :
  get_trending_cryptos (http w) = (Ok v, h') ->
  button_click (CallbackQuery "trending") w =
    (show_crypto_list (CallbackQuery "trending") v "Trending Cryptocurrencies:" ;;;
     ret (Some CHOOSING_CRYPTO))
      {| user_data := user_data w; http := h';
         chat := chat w ++
           [Answer; EditMessageText "Fetching trending cryptocurrencies, please wait..." None] |}.
Proof.
  intros E. enter_click. pick_branch.
  rewrite bind_edit_message_text. cbn [answered user_data http chat].
  rewrite (bind_run_http _ _ _ _ _ _ _ E). rewrite <- app_assoc. reflexivity.
Qed.

Lemma button_click_compare `{PyText} (w : World) crypto_id v h' :
  user_data w !! "crypto" = Some crypto_id -> crypto_id <> "" ->
  get_top_cryptos 100 (http w) = (Ok v, h') ->
  button_click (CallbackQuery "compare_selection") w =
    (show_crypto_list (CallbackQuery "compare_selection") v
       ("Compare " +:+ crypto_id +:+ " with another currency:") ;;;
     ret (Some CHOOSING_CURRENCY))
      {| user_data := user_data w; http := h';
         chat := chat w ++
           [Answer;
            EditMessageText "Fetching top 100 currencies for comparison, please wait..." None] |}.
Proof.
  intros Hud Hne E. enter_click. pick_branch.
  rewrite bind_user_data_get. cbn [answered user_data]. rewrite Hud.
  cbn [py_not default]. rewrite bool_decide_eq_false_2 by exact Hne.
  rewrite bind_edit_message_text. cbn [answered user_data http chat].
  rewrite (bind_run_http _ _ _ _ _ _ _ E). rewrite <- app_assoc. reflexivity.
Qed.

(** "Compare" with no asset chosen: the guard message, no fetch, no next
    state, nothing stored. *)
Lemma button_click_compare_guard `{PyText} (w : World) :
  no_asset (user_data w) ->
  button_click (CallbackQuery "compare_selection") w =
    (Ok None,
     {| user_data := user_data w; http := http w;
        chat := chat w ++
          [Answer; EditMessageText "Please select a cryptocurrency before comparing." None] |}).
Proof.
  intros Hno. enter_click. pick_branch.
  rewrite bind_user_data_get. cbn [answered user_data].
  destruct Hno as [-> | ->]; cbn [py_not].
  - rewrite bind_edit_message_text. unfold ret.
    cbn [answered user_data http chat]. rewrite <- app_assoc. reflexivity.
  - rewrite bool_decide_eq_true_2 by reflexivity.
    rewrite bind_edit_message_text. unfold ret.
    cbn [answered user_data http chat]. rewrite <- app_assoc. reflexivity.
Qed.

Lemma then_ret_after_list `{PyText} (data title : string) (l : list json) bs (w : World)
    (r : option nat) :
  omap_list crypto_button l = Ok bs ->
  (show_crypto_list (CallbackQuery data) (JArr l) title ;;; ret r) w =
    (Ok r,
     {| user_data := user_data w; http := http w;
        chat := chat w ++ [EditMessageText title (Some (pairs bs ++ [back_row]))] |}).
Proof.
  intros Hbs. unfold bind. rewrite (show_crypto_list_pairs data title l bs w Hbs).
  reflexivity.
Qed.

(** ** The branches that fetch nothing *)

Lemma button_click_main_menu `{PyText} (w : World) :
  exists w', button_click (CallbackQuery "main_menu") w = (Ok (Some MAIN_MENU), w').
Proof. eexists. reflexivity. Qed.

Lemma button_click_quit `{PyText} (w : World) :
  exists w', button_click (CallbackQuery "quit") w = (Ok (Some MAIN_MENU), w').
Proof. eexists. reflexivity. Qed.

Lemma button_click_search `{PyText} (w : World) :
  exists w', button_click (CallbackQuery "search") w = (Ok (Some TYPING_SEARCH), w').
Proof. eexists. reflexivity. Qed.

(** A payload that no test recognises. *)
Lemma button_click_invalid `{PyText} (data : string) (w : World) :
  data <> "main_menu" -> data <> "top100" -> data <> "quit" -> data <> "trending" ->
  data <> "search" -> startswith data "crypto:" = false ->
  startswith data "currency:" = false -> data <> "compare_selection" ->
  exists w', button_click (CallbackQuery data) w = (Ok (Some MAIN_MENU), w').
Proof.
  intros ? ? ? ? ? Hc Hu ?. enter_click.
  repeat (case_bool_decide; [contradiction|]).
  rewrite Hc, Hu. eexists. reflexivity.
Qed.

(** ** The two branches that decode a payload *)

Lemma button_click_crypto `{PyText} (data : string) (w : World) :
  startswith data "crypto:" = true ->
  exists chosen keyboard,
    index (split ":" data) 1 = Ok chosen /\
    button_click (CallbackQuery data) w =
      (Ok (Some CHOOSING_CURRENCY),
       {| user_data := <["crypto" := chosen]> (user_data w);
          http := http w;
          chat := chat w ++ [Answer; EditMessageText "Choose a currency:" (Some keyboard)] |}).
Proof.
  intros Hs.
  destruct (startswith_app _ _ Hs) as [rest Hdata].
  destruct (index_split_crypto rest) as (chosen & ps & _ & Hidx).
  rewrite <- Hdata in Hidx. exists chosen. eexists. split; [exact Hidx|].
  enter_click. skip_branches Hs. rewrite Hs. cbv iota.
  rewrite Hidx, bind_lift_Ok, bind_user_data_set.
  unfold show_currency_options. rewrite bind_edit_message_text. unfold ret.
  cbn [answered user_data http chat]. rewrite <- app_assoc. reflexivity.
Qed.

Lemma button_click_currency `{PyText} (data : string) (w : World) :
  startswith data "currency:" = true ->
  exists currency,
    index (split ":" data) 1 = Ok currency /\
    button_click (CallbackQuery data) w =
      (show_crypto_details (CallbackQuery data)
         (default "bitcoin" (user_data w !! "crypto")) currency ;;;
       ret (Some COMPARE_SELECTION)) (answered w).
Proof.
  intros Hs.
  pose proof (currency_not_crypto data Hs) as Hn.
  destruct (startswith_app _ _ Hs) as [rest Hdata].
  destruct (index_split_currency rest) as (currency & ps & _ & Hidx).
  rewrite <- Hdata in Hidx. exists currency. split; [exact Hidx|].
  enter_click. skip_branches Hs. rewrite Hn, Hs. cbv iota.
  rewrite Hidx, bind_lift_Ok, bind_user_data_get. reflexivity.
Qed.

(** * The quote renderer *)

Lemma py_str_get_default `{PyText} (m : gmap string json) (key : string) :
  py_str (default (JStr "N/A") (m !! key)) = shown m key.
Proof. unfold shown. destruct (m !! key); reflexivity. Qed.

Lemma truthy_record (m : gmap string json) : m <> ∅ -> truthy (JObj m) = true.
Proof. intros Hm. simpl. rewrite bool_decide_eq_false_2 by exact Hm. reflexivity. Qed.

(** C7 (amended).  On a fetched record that is not empty the quote
    renderer sends the quote message, in which each of price, 24h change,
    market cap and 24h volume reads its value as [str] prints it when the
    record has the field and ['N/A'] when it has not (so ['N/A'] for a
    missing market cap), then the options; on the empty record it sends
    the unavailable notice alone.  It returns without raising in both
    cases. *)
Theorem show_crypto_details_missing_fields `{PyText} (data crypto_id currency : string)
    (w : World) (m : gmap string json) (h' : Http) :
  get_crypto_details crypto_id currency (http w) = (Ok (JObj m), h') ->
  (m <> ∅ ->
   show_crypto_details (CallbackQuery data) crypto_id currency w =
     (Ok tt,
      {| user_data := user_data w;
         http := h';
         chat := chat w ++
           [EditMessageText
              ("💰 " +:+ capitalize crypto_id +:+ " (" +:+ upper currency +:+ ")" +:+ LF +:+
               "Price: " +:+ shown m currency +:+ " " +:+ upper currency +:+ LF +:+
               "24h Change: " +:+ shown m (currency +:+ "_24h_change") +:+ "%" +:+ LF +:+
               "Market Cap: " +:+ shown m (currency +:+ "_market_cap") +:+ " " +:+
                 upper currency +:+ LF +:+
               "24h Trading Volume: " +:+ shown m (currency +:+ "_24h_vol") +:+ " " +:+
                 upper currency +:+ LF +:+ LF)
              None;
            ReplyText "Select an option:" (Some details_keyboard)] |})) /\
  (m = ∅ ->
   show_crypto_details (CallbackQuery data) crypto_id currency w =
     (Ok tt,
      {| user_data := user_data w;
         http := h';
         chat := chat w ++
           [EditMessageText "🚫 Unable to retrieve cryptocurrency details." None] |})) /\
  (forall key, m !! key = None -> shown m key = "N/A") /\
  (forall key v, m !! key = Some v -> shown m key = py_str v).
Proof.
  intros E. destruct w as [ud h c]. cbn [user_data http chat] in *.
  split; [|split; [|split]].
  - intros Hm. unfold show_crypto_details.
    rewrite (bind_run_http _ _ _ _ _ _ _ E).
    rewrite (truthy_record m Hm). cbn [dict_get].
    rewrite !bind_lift_Ok, !py_str_get_default.
    rewrite bind_edit_message_text.
    unfold query_message_reply_text, chat_emit. cbn [callback_query user_data http chat].
    rewrite <- app_assoc. reflexivity.
  - intros ->. unfold show_crypto_details.
    rewrite (bind_run_http _ _ _ _ _ _ _ E). reflexivity.
  - intros key Hk. unfold shown. rewrite Hk. reflexivity.
  - intros key v Hk. unfold shown. rewrite Hk. reflexivity.
Qed.

Lemma show_crypto_details_missing_fields_witness :
  @show_crypto_details ascii_text (CallbackQuery "currency:usd") "bitcoin" "usd"
    (fresh_world ∅ market_http) =
    (Ok tt,
     {| user_data := ∅;
        http := snd (get_crypto_details "bitcoin" "usd" market_http);
        chat := [] ++
          [EditMessageText
             ("💰 " +:+ "Bitcoin" +:+ " (" +:+ "USD" +:+ ")" +:+ LF +:+
              "Price: " +:+ "67000" +:+ " " +:+ "USD" +:+ LF +:+
              "24h Change: " +:+ "1.5" +:+ "%" +:+ LF +:+
              "Market Cap: " +:+ "N/A" +:+ " " +:+ "USD" +:+ LF +:+
              "24h Trading Volume: " +:+ "N/A" +:+ " " +:+ "USD" +:+ LF +:+ LF)
             None;
           ReplyText "Select an option:" (Some details_keyboard)] |}).
Proof.
  destruct (@show_crypto_details_missing_fields ascii_text "currency:usd" "bitcoin" "usd"
              (fresh_world ∅ market_http) usd_quote
              (snd (get_crypto_details "bitcoin" "usd" market_http)) eq_refl)
    as (Hquote & _ & _ & _).
  exact (Hquote (insert_non_empty _ _ _)).
Defined.

(** The empty record is not rendered field by field: its market-cap
    field is missing, yet the renderer sends the unavailable notice alone,
    with no ['N/A'] in it. *)
Lemma show_crypto_details_empty_record :
  (∅ : gmap string json) !! "usd_market_cap" = None /\
  @show_crypto_details ascii_text (CallbackQuery "currency:usd") "bitcoin" "usd"
    (fresh_world ∅ (steady_http (JObj ∅))) =
    (Ok tt,
     {| user_data := ∅;
        http := snd (get_crypto_details "bitcoin" "usd" (steady_http (JObj ∅)));
        chat := [EditMessageText "🚫 Unable to retrieve cryptocurrency details." None] |}).
Proof. split; reflexivity. Qed.

(** The quote renderer returns whenever the fetched document is a record
    or counts as false. *)
Lemma show_crypto_details_returns `{PyText} (data crypto_id currency : string)
    (w : World) v h' :
  get_crypto_details crypto_id currency (http w) = (Ok v, h') ->
  (truthy v = true -> exists m, v = JObj m) ->
  exists c', show_crypto_details (CallbackQuery data) crypto_id currency w =
    (Ok tt, {| user_data := user_data w; http := h'; chat := c' |}).
Proof.
  intros E Hv. destruct w as [ud h c]. cbn [user_data http chat] in *.
  unfold show_crypto_details.
  rewrite (bind_run_http _ _ _ _ _ _ _ E).
  destruct (truthy v) eqn:Ht.
  - destruct (Hv eq_refl) as [m ->]. cbn [dict_get].
    rewrite !bind_lift_Ok. rewrite bind_edit_message_text.
    eexists. reflexivity.
  - eexists. reflexivity.
Qed.

(** Whatever the fetched document, the HTTP side after the quote renderer
    is the one that the fetch left. *)
Lemma show_crypto_details_http `{PyText} (data crypto_id currency : string)
    (w : World) v h' :
  get_crypto_details crypto_id currency (http w) = (Ok v, h') ->
  http (snd (show_crypto_details (CallbackQuery data) crypto_id currency w)) = h' /\
  user_data (snd (show_crypto_details (CallbackQuery data) crypto_id currency w)) = user_data w.
Proof.
  intros E. destruct w as [ud h c]. cbn [user_data http chat] in *.
  unfold show_crypto_details.
  rewrite (bind_run_http _ _ _ _ _ _ _ E).
  destruct (truthy v) eqn:Ht; [|split; reflexivity].
  destruct v; try (split; reflexivity).
Qed.

(** C10.  The handler writes nothing to [context.user_data] but the key
    ['crypto']: every other entry is as before; a payload that does not
    start with ['crypto:'] (so also a currency selection) leaves the whole
    dictionary unchanged; a payload that starts with ['crypto:'] overwrites
    ['crypto'] with the decoded id; the currency of a ['currency:'] payload
    only travels as the argument of the quote renderer. *)
Theorem button_click_writes_only_crypto `{PyText} (update : Update) (w : World) :
  let w' := snd (button_click update w) in
  delete "crypto" (user_data w') = delete "crypto" (user_data w) /\
  (forall data, update = CallbackQuery data -> startswith data "crypto:" = false ->
     user_data w' = user_data w) /\
  (forall data, update = CallbackQuery data -> startswith data "crypto:" = true ->
     exists chosen, index (split ":" data) 1 = Ok chosen /\
       user_data w' = <["crypto" := chosen]> (user_data w)) /\
  (forall data, update = CallbackQuery data -> startswith data "currency:" = true ->
     exists currency, index (split ":" data) 1 = Ok currency /\
       user_data w' = user_data w /\
       button_click update w =
         (show_crypto_details update (default "bitcoin" (user_data w !! "crypto")) currency ;;;
          ret (Some COMPARE_SELECTION)) (answered w)).
Proof.
  intros w'.
  assert (Hkeep : forall data, update = CallbackQuery data ->
            startswith data "crypto:" = false -> user_data w' = user_data w).
  { intros data -> Hs. subst w'. enter_click. rewrite Hs.
    match goal with |- user_data (snd (?m ?w1)) = _ =>
      assert (K : keeps_user_data m) by keeps; exact (K w1) end. }
  assert (Hset : forall data, update = CallbackQuery data ->
            startswith data "crypto:" = true ->
            exists chosen, index (split ":" data) 1 = Ok chosen /\
              user_data w' = <["crypto" := chosen]> (user_data w)).
  { intros data -> Hs. subst w'.
    destruct (button_click_crypto data w Hs) as (chosen & kb & Hidx & ->).
    exists chosen. split; [exact Hidx|reflexivity]. }
  split; [|split; [exact Hkeep|split; [exact Hset|]]].
  - destruct update as [data|text|]; [|reflexivity..].
    destruct (startswith data "crypto:") eqn:Hs.
    + destruct (Hset data eq_refl Hs) as (chosen & _ & ->).
      apply delete_insert_eq.
    + rewrite (Hkeep data eq_refl Hs). reflexivity.
  - intros data -> Hs.
    destruct (button_click_currency data w Hs) as (currency & Hidx & E).
    exists currency. split; [exact Hidx|]. split; [|exact E].
    exact (Hkeep data eq_refl (currency_not_crypto data Hs)).
Qed.

Lemma button_click_writes_only_crypto_witness :
  exists chosen,
    index (split ":" "crypto:bitcoin") 1 = Ok chosen /\
    user_data (snd (@button_click ascii_text (CallbackQuery "crypto:bitcoin")
                      (fresh_world {["crypto" := "ethereum"]} (steady_http two_assets)))) =
      <["crypto" := chosen]> ({["crypto" := "ethereum"]} : gmap string string).
Proof.
  destruct (@button_click_writes_only_crypto ascii_text (CallbackQuery "crypto:bitcoin")
              (fresh_world {["crypto" := "ethereum"]} (steady_http two_assets)))
    as (_ & _ & Hset & _).
  apply (Hset "crypto:bitcoin"); reflexivity.
Defined.

(** C2.  "Compare" with an asset chosen fetches the top assets afresh and
    renders them, and the state it returns is [CHOOSING_CURRENCY], which is
    not [CHOOSING_CRYPTO]; the dictionary is left as it was. *)
Theorem button_click_compare_next_state `{PyText} (w : World) (crypto_id : string)
    (l : list json) (h' : Http) :
  user_data w !! "crypto" = Some crypto_id -> crypto_id <> "" ->
  get_top_cryptos 100 (http w) = (Ok (JArr l), h') ->
  forallb asset_record l = true ->
  exists keyboard,
    button_click (CallbackQuery "compare_selection") w =
      (Ok (Some CHOOSING_CURRENCY),
       {| user_data := user_data w; http := h';
          chat := chat w ++
            [Answer;
             EditMessageText "Fetching top 100 currencies for comparison, please wait..." None;
             EditMessageText ("Compare " +:+ crypto_id +:+ " with another currency:")
               (Some keyboard)] |}) /\
    CHOOSING_CURRENCY <> CHOOSING_CRYPTO /\
    1 <= sent h' - sent (http w).
Proof.
  intros Hud Hne E Hl.
  destruct (crypto_buttons_asset_records l Hl) as [bs Hbs].
  exists (pairs bs ++ [back_row]). split; [|split; [discriminate|]].
  - rewrite (button_click_compare w crypto_id _ _ Hud Hne E).
    rewrite (then_ret_after_list _ _ l bs _ _ Hbs).
    cbn [user_data http chat]. rewrite <- app_assoc. reflexivity.
  - unfold get_top_cryptos in E.
    destruct (make_api_request_gets (COINGECKO_API_URL +:+ "/coins/markets")
                (Some (get_top_cryptos_params 100)) (http w))
      as (v & h2 & n & E2 & Hn & Hs & _).
    rewrite E in E2. injection E2 as _ <-. lia.
Qed.

Lemma button_click_compare_next_state_witness :
  exists keyboard,
    @button_click ascii_text (CallbackQuery "compare_selection")
      (fresh_world {["crypto" := "bitcoin"]} (steady_http two_assets)) =
      (Ok (Some CHOOSING_CURRENCY),
       {| user_data := {["crypto" := "bitcoin"]};
          http := snd (get_top_cryptos 100 (steady_http two_assets));
          chat := [] ++
            [Answer;
             EditMessageText "Fetching top 100 currencies for comparison, please wait..." None;
             EditMessageText ("Compare " +:+ "bitcoin" +:+ " with another currency:")
               (Some keyboard)] |}) /\
    CHOOSING_CURRENCY <> CHOOSING_CRYPTO /\
    1 <= sent (snd (get_top_cryptos 100 (steady_http two_assets))) - sent (steady_http two_assets).
Proof.
  refine (@button_click_compare_next_state ascii_text
            (fresh_world {["crypto" := "bitcoin"]} (steady_http two_assets)) "bitcoin"
            [asset "bitcoin" "Bitcoin" "btc"; asset "ethereum" "Ethereum" "eth"]
            (snd (get_top_cryptos 100 (steady_http two_assets))) _ _ _ _).
  - reflexivity.
  - discriminate.
  - reflexivity.
  - reflexivity.
Defined.

(** * Currency selection without an asset *)




(** * The trending list *)

(** On a list of asset records the trending branch renders the list and
    returns [CHOOSING_CRYPTO]. *)
Lemma button_click_trending_list `{PyText} (w : World) (l : list json) (h' : Http) :
  get_trending_cryptos (http w) = (Ok (JArr l), h') ->
  forallb asset_record l = true ->
  exists w', button_click (CallbackQuery "trending") w = (Ok (Some CHOOSING_CRYPTO), w').
Proof.
  intros E Hl. destruct (crypto_buttons_asset_records l Hl) as [bs Hbs].
  rewrite (button_click_trending w _ _ E), (then_ret_after_list _ _ l bs _ _ Hbs).
  eexists. reflexivity.
Qed.

(** C6.  When the trending fetch delivers a record that is not empty (the
    endpoint lists the trending assets under the field [coins] of a
    record), the handler raises after its "Fetching" notice: no list is
    rendered and no state is returned. *)
Theorem button_click_trending_record `{PyText} (w : World) (m : gmap string json) (h' : Http) :
  get_trending_cryptos (http w) = (Ok (JObj m), h') ->
  m <> ∅ ->
  button_click (CallbackQuery "trending") w =
    (Raise TypeError,
     {| user_data := user_data w;
        http := h';
        chat := chat w ++
          [Answer;
           EditMessageText "Fetching trending cryptocurrencies, please wait..." None] |}).
Proof.
  intros E Hm. rewrite (button_click_trending w _ _ E).
  unfold bind. rewrite (show_crypto_list_record _ _ m _ Hm). reflexivity.
Qed.

Lemma button_click_trending_record_witness :
  @button_click ascii_text (CallbackQuery "trending")
    (fresh_world ∅ (steady_http trending_reply)) =
    (Raise TypeError,
     {| user_data := ∅;
        http := snd (get_trending_cryptos (steady_http trending_reply));
        chat := [] ++
          [Answer;
           EditMessageText "Fetching trending cryptocurrencies, please wait..." None] |}).
Proof.
  refine (@button_click_trending_record ascii_text
            (fresh_world ∅ (steady_http trending_reply))
            (<["coins" := JArr [JObj (<["item" := asset "bitcoin" "Bitcoin" "btc"]> ∅)]]> ∅)
            (snd (get_trending_cryptos (steady_http trending_reply))) _ _).
  - reflexivity.
  - apply insert_non_empty.
Defined.

(** * The state that the handler returns *)

(** The handler does not always return a state: "Compare" with nothing
    stored returns [None], the bare [return]. *)
Lemma button_click_compare_returns_no_state :
  fst (@button_click ascii_text (CallbackQuery "compare_selection")
         (fresh_world ∅ market_http)) = Ok None /\
  ~ exists s,
      fst (@button_click ascii_text (CallbackQuery "compare_selection")
             (fresh_world ∅ market_http)) = Ok (Some s).
Proof. split; [reflexivity|]. intros [s E]. discriminate E. Qed.

#[local] Ltac some_state :=
  split;
  [ split; [discriminate | intros [Hd Hno]; try discriminate Hd; try contradiction]
  | intros s [= <-]; simpl; auto 10 ].

(** C8 (amended).  When the documents that the event itself fetches have
    the shapes that its renderer expects (nothing is asked for an event
    that fetches nothing), the handler returns, and what it returns is one
    of the five states or no state at all ([None]: the conversation stays
    where it is); it returns no state exactly on "Compare" with no asset
    chosen. *)
Theorem button_click_next_state `{PyText} (data : string) (w : World) :
  event_documents_render data w ->
  exists r w',
    button_click (CallbackQuery data) w = (Ok r, w') /\
    (r = None <-> data = "compare_selection" /\ no_asset (user_data w)) /\
    (forall s, r = Some s ->
       In s [MAIN_MENU; CHOOSING_CRYPTO; CHOOSING_CURRENCY; TYPING_SEARCH; COMPARE_SELECTION]).
Proof.
  intros (Htop & Htrending & Hquote).
  assert (Hlist : forall d v title w1 (r : option nat),
            renderable v = true ->
            exists w', (show_crypto_list (CallbackQuery d) v title ;;; ret r) w1 = (Ok r, w')).
  { intros d v title w1 r Hv.
    destruct (show_crypto_list_on_renderable d title v w1 Hv) as [rows E].
    unfold bind. rewrite E. eexists. reflexivity. }
  destruct (decide (data = "main_menu")) as [->|N1].
  { destruct (button_click_main_menu w) as [w' E].
    exists (Some MAIN_MENU), w'. split; [exact E|some_state]. }
  destruct (decide (data = "top100")) as [->|N2].
  { destruct (make_api_request_gets (COINGECKO_API_URL +:+ "/coins/markets")
                (Some (get_top_cryptos_params 100)) (http w)) as (v & h' & n & E & _).
    change (get_top_cryptos 100 (http w) = (Ok v, h')) in E.
    rewrite (button_click_top100 w _ _ E).
    destruct (Hlist "top100" v "Top 100 Cryptocurrencies:"
                {| user_data := user_data w; http := h';
                   chat := chat w ++
                     [Answer;
                      EditMessageText "Fetching top cryptocurrencies, please wait..." None] |}
                (Some CHOOSING_CRYPTO) (Htop (or_introl eq_refl) v h' E)) as [w' ->].
    eexists _, _. split; [reflexivity|some_state]. }
  destruct (decide (data = "quit")) as [->|N3].
  { destruct (button_click_quit w) as [w' E].
    exists (Some MAIN_MENU), w'. split; [exact E|some_state]. }
  destruct (decide (data = "trending")) as [->|N4].
  { destruct (make_api_request_gets (COINGECKO_API_URL +:+ "/search/trending") None (http w))
      as (v & h' & n & E & _).
    change (get_trending_cryptos (http w) = (Ok v, h')) in E.
    rewrite (button_click_trending w _ _ E).
    destruct (Hlist "trending" v "Trending Cryptocurrencies:"
                {| user_data := user_data w; http := h';
                   chat := chat w ++
                     [Answer;
                      EditMessageText "Fetching trending cryptocurrencies, please wait..."
                        None] |}
                (Some CHOOSING_CRYPTO) (Htrending eq_refl v h' E)) as [w' ->].
    eexists _, _. split; [reflexivity|some_state]. }
  destruct (decide (data = "search")) as [->|N5].
  { destruct (button_click_search w) as [w' E].
    exists (Some TYPING_SEARCH), w'. split; [exact E|some_state]. }
  destruct (startswith data "crypto:") eqn:Hc.
  { destruct (button_click_crypto data w Hc) as (chosen & kb & _ & E).
    eexists _, _. split; [exact E|some_state].
    subst data. discriminate Hc. }
  destruct (startswith data "currency:") eqn:Hu.
  { destruct (button_click_currency data w Hu) as (currency & Hidx & E).
    destruct (make_api_request_gets (COINGECKO_API_URL +:+ "/simple/price")
                (Some (get_crypto_details_params
                         (default "bitcoin" (user_data w !! "crypto")) currency)) (http w))
      as (v & h' & n & Ef & _).
    change (get_crypto_details (default "bitcoin" (user_data w !! "crypto")) currency
              (http (answered w)) = (Ok v, h')) in Ef.
    destruct (show_crypto_details_returns data _ currency (answered w) v h' Ef
                (Hquote eq_refl currency v h' Hidx Ef)) as [c' Ed].
    rewrite E. unfold bind. rewrite Ed.
    eexists _, _. split; [reflexivity|some_state].
    subst data. discriminate Hu. }
  destruct (decide (data = "compare_selection")) as [->|N6].
  { destruct (user_data w !! "crypto") as [crypto_id|] eqn:Hud.
    - destruct (decide (crypto_id = "")) as [->|Hne].
      + rewrite (button_click_compare_guard w (or_intror Hud)).
        eexists _, _. split; [reflexivity|].
        split; [|discriminate].
        split; [intros _; split; [reflexivity|right; exact Hud] | reflexivity].
      + assert (Hset : ~ no_asset (user_data w)).
        { intros [Hno|Hno]; congruence. }
        destruct (make_api_request_gets (COINGECKO_API_URL +:+ "/coins/markets")
                    (Some (get_top_cryptos_params 100)) (http w)) as (v & h' & n & E & _).
        change (get_top_cryptos 100 (http w) = (Ok v, h')) in E.
        rewrite (button_click_compare w crypto_id _ _ Hud Hne E).
        destruct (Hlist "compare_selection" v
                    ("Compare " +:+ default "None" (Some crypto_id) +:+
                           " with another currency:")
                    {| user_data := user_data w; http := h';
                       chat := chat w ++
                         [Answer;
                          EditMessageText
                            "Fetching top 100 currencies for comparison, please wait..."
                            None] |}
                    (Some CHOOSING_CURRENCY)
                    (Htop (or_intror (conj eq_refl Hset)) v h' E)) as [w' E'].
        eexists _, _. split; [exact E'|some_state].
    - rewrite (button_click_compare_guard w (or_introl Hud)).
      eexists _, _. split; [reflexivity|].
      split; [|discriminate].
      split; [intros _; split; [reflexivity|left; exact Hud] | reflexivity]. }
  destruct (button_click_invalid data w N1 N2 N3 N4 N5 Hc Hu N6) as [w' E].
  exists (Some MAIN_MENU), w'. split; [exact E|some_state].
Qed.

Lemma button_click_next_state_witness :
  exists r w',
    @button_click ascii_text (CallbackQuery "top100") (fresh_world ∅ market_http) =
      (Ok r, w') /\
    (r = None <->
       "top100" = "compare_selection" /\
       no_asset (user_data (fresh_world ∅ market_http))) /\
    (forall s, r = Some s ->
       In s [MAIN_MENU; CHOOSING_CRYPTO; CHOOSING_CURRENCY; TYPING_SEARCH; COMPARE_SELECTION]).
Proof.
  apply (@button_click_next_state ascii_text "top100" (fresh_world ∅ market_http)).
  split; [|split].
  - intros _ v h' E. vm_compute in E. injection E as <- <-. reflexivity.
  - intros Hd. discriminate Hd.
  - intros Hd. discriminate Hd.
Defined.

(** On a network on which nothing gets through, the payloads that fetch
    nothing still satisfy the condition, and the handler returns a state. *)
Example quit_on_dead_network_returns :
  event_documents_render "quit" (fresh_world ∅ dead_http) /\
  fst (@button_click ascii_text (CallbackQuery "quit") (fresh_world ∅ dead_http))
    = Ok (Some MAIN_MENU).
Proof.
  split; [|reflexivity].
  split; [|split].
  - intros [Hd|[Hd _]]; discriminate Hd.
  - intros Hd. discriminate Hd.
  - intros Hd. discriminate Hd.
Qed.

(** * Payload round trip *)

Lemma index_split_colon_free (pre id : string) :
  has_char ":" pre = false -> has_char ":" id = false ->
  index (split ":" (pre +:+ String ":" id)) 1 = Ok id.
Proof.
  intros Hp Hi. rewrite split_after_prefix by exact Hp.
  rewrite (split_no_sep _ _ Hi). reflexivity.
Qed.

(** An asset id with a colon in it is not recovered: the button of the
    asset ['a:b'] carries ['crypto:a:b'], and pressing it stores ['a']. *)
Lemma crypto_payload_with_colon_not_recovered :
  exists b,
    @crypto_button ascii_text (asset "a:b" "Ab" "ab") = Ok b /\
    callback_data b = "crypto:a:b" /\
    user_data (snd (@button_click ascii_text (CallbackQuery (callback_data b))
                      (fresh_world ∅ market_http))) !! "crypto" = Some "a" /\
    "a" <> "a:b".
Proof.
  eexists. split; [reflexivity|]. split; [reflexivity|]. split; [reflexivity|discriminate].
Qed.

(** C9 (amended).  The button that the list renderer builds for an asset
    carries ['crypto:'] followed by the asset's id, and when the id has no
    colon in it, pressing the button stores exactly that id under
    ['crypto'].  The button of each supported currency carries
    ['currency:'] followed by the code, and pressing it hands exactly that
    code to the quote renderer. *)
Theorem payload_round_trip `{PyText} (w : World) :
  (forall crypto b,
     crypto_button crypto = Ok b ->
     exists v,
       dict_get crypto "id" (JStr "unknown") = Ok v /\
       callback_data b = "crypto:" +:+ py_str v /\
       (has_char ":" (py_str v) = false ->
        user_data (snd (button_click (CallbackQuery (callback_data b)) w)) !! "crypto"
          = Some (py_str v))) /\
  (forall currency,
     In currency SUPPORTED_CURRENCIES ->
     index (split ":" ("currency:" +:+ currency)) 1 = Ok currency /\
     button_click (CallbackQuery ("currency:" +:+ currency)) w =
       (show_crypto_details (CallbackQuery ("currency:" +:+ currency))
          (default "bitcoin" (user_data w !! "crypto")) currency ;;;
        ret (Some COMPARE_SELECTION)) (answered w)) /\
  show_currency_options (CallbackQuery "crypto:") w =
    (Ok tt,
     {| user_data := user_data w; http := http w;
        chat := chat w ++
          [EditMessageText "Choose a currency:"
             (Some (((fun currency =>
                        [{| text := upper currency;
                            callback_data := "currency:" +:+ currency |}])
                       <$> SUPPORTED_CURRENCIES) ++ [back_row]))] |}).
Proof.
  split; [|split; [|reflexivity]].
  - intros crypto b Hb. unfold crypto_button in Hb.
    destruct crypto as [| | | | | |m]; try discriminate Hb.
    cbn [dict_get obind] in Hb.
    destruct (str_upper (default (JStr "Unknown") (m !! "symbol"))) as [up|]; [|discriminate Hb].
    cbn [obind] in Hb. injection Hb as <-.
    exists (default (JStr "unknown") (m !! "id")).
    split; [reflexivity|]. split; [reflexivity|].
    intros Hfree. cbn [callback_data].
    destruct (button_click_crypto ("crypto:" +:+ py_str (default (JStr "unknown") (m !! "id")))
                w (startswith_app_true "crypto:" _)) as (chosen & kb & Hidx & ->).
    cbn [snd user_data]. rewrite lookup_insert_eq. f_equal.
    change ("crypto:" +:+ py_str (default (JStr "unknown") (m !! "id")))
      with ("crypto" +:+ String ":" (py_str (default (JStr "unknown") (m !! "id")))) in Hidx.
    rewrite index_split_colon_free in Hidx by (reflexivity || exact Hfree).
    congruence.
  - intros currency Hin.
    assert (Hidx : index (split ":" ("currency:" +:+ currency)) 1 = Ok currency).
    { simpl in Hin.
      repeat (destruct Hin as [<-|Hin]; [reflexivity|]). contradiction. }
    split; [exact Hidx|].
    destruct (button_click_currency ("currency:" +:+ currency) w
                (startswith_app_true "currency:" _)) as (c & Hc & E).
    rewrite Hidx in Hc. injection Hc as <-. exact E.
Qed.

Lemma payload_round_trip_witness :
  exists v,
    dict_get (asset "bitcoin" "Bitcoin" "btc") "id" (JStr "unknown") = Ok v /\
    callback_data {| text := "Bitcoin (BTC)"; callback_data := "crypto:bitcoin" |} =
      "crypto:" +:+ @py_str ascii_text v /\
    (has_char ":" (@py_str ascii_text v) = false ->
     user_data (snd (@button_click ascii_text
                       (CallbackQuery
                          (callback_data
                             {| text := "Bitcoin (BTC)"; callback_data := "crypto:bitcoin" |}))
                       (fresh_world ∅ market_http))) !! "crypto"
       = Some (@py_str ascii_text v)).
Proof.
  destruct (@payload_round_trip ascii_text (fresh_world ∅ market_http)) as (Hcrypto & _ & _).
  apply (Hcrypto (asset "bitcoin" "Bitcoin" "btc")).
  reflexivity.
Defined.

(** * Further properties of the fetch helper *)

Lemma loop_outcomes attempts : forall r h,
  exists v h' k tail,
    make_api_request_loop attempts r h = (Ok v, h') /\
    (forall i, i < k -> transient (net h (sent h + i) r) = true) /\
    http_log h' = http_log h ++ concat (replicate k (failed_attempt r)) ++ tail /\
    sent h' = sent h + k + length (gets tail) /\
    ((k < length attempts /\ tail = [Get r] /\ decoded (net h (sent h + k) r) = Some v) \/
     (k < length attempts /\ tail = [Get r; LogError] /\ v = py_None /\
      non_transient (net h (sent h + k) r) = true) \/
     (k = length attempts /\ tail = [] /\ v = py_None)).
Proof.
  induction attempts as [|a rest IH]; intros r h.
  - exists py_None, h, 0, []. simpl. rewrite app_nil_r.
    split; [reflexivity|]. split; [intros i Hi; lia|]. split; [reflexivity|].
    split; [lia|]. right. right. auto.
  - destruct (transient (net h (sent h) r)) eqn:Ht.
    + rewrite (loop_step_transient a rest r h Ht).
      destruct (IH r (after_failures 1 r h)) as (v & h' & k & tail & E & Hk & Hlog & Hs & Hcase).
      exists v, h', (S k), tail. rewrite E. cbn [after_failures sent net http_log] in *.
      split; [reflexivity|]. split.
      { intros i Hi. destruct i as [|i].
        - rewrite Nat.add_0_r. exact Ht.
        - replace (sent h + S i) with (sent h + 1 + i) by lia. apply Hk. lia. }
      split.
      { rewrite Hlog. cbn [replicate concat]. unfold failed_attempt at 2.
        simpl. rewrite <- !app_assoc. reflexivity. }
      split; [lia|].
      replace (sent h + S k) with (sent h + 1 + k) by lia. simpl length.
      destruct Hcase as [(Hl & Ht' & Hd)|[(Hl & Ht' & Hv & Hn)|(Hl & Ht' & Hv)]].
      * left. split; [lia|]. split; assumption.
      * right. left. split; [lia|]. repeat split; assumption.
      * right. right. split; [lia|]. split; assumption.
    + destruct (decoded (net h (sent h) r)) as [j|] eqn:Hd.
      * rewrite (loop_step_decoded a rest r h j Hd).
        eexists j, _, 0, [Get r]. split; [reflexivity|].
        cbn [sent net http_log replicate concat app]. rewrite Nat.add_0_r.
        split; [intros i Hi; lia|]. split; [reflexivity|].
        split; [simpl; lia|]. left. simpl. split; [lia|]. split; [reflexivity|exact Hd].
      * assert (Hn : non_transient (net h (sent h) r) = true).
        { destruct (net h (sent h) r) as [|st [b|]]; simpl in *; try reflexivity;
            destruct (bool_decide (400 <= st < 600)%Z); simpl in *; congruence. }
        rewrite (loop_step_non_transient a rest r h Hn).
        eexists py_None, _, 0, [Get r; LogError]. split; [reflexivity|].
        cbn [sent net http_log replicate concat app]. rewrite Nat.add_0_r.
        split; [intros i Hi; lia|]. split; [reflexivity|].
        split; [simpl; lia|]. right. left. simpl.
        split; [lia|]. repeat split; try reflexivity. exact Hn.
Qed.

(** X1.  What one call of the fetch helper does, in full: [k <= 5]
    attempts that end in an HTTP error, each logged as request, warning and
    a sleep of two seconds, and then one of three endings: a request whose
    reply is decoded and returned; a request that fails otherwise, an error
    log entry and [None]; or, after five failures, nothing more and
    [None]. *)
Theorem make_api_request_outcomes (u : string) (ps : option (gmap string json)) (h : Http) :
  let r := {| url := u; params := ps |} in
  exists v h' k tail,
    make_api_request u ps h = (Ok v, h') /\
    (forall i, i < k -> transient (net h (sent h + i) r) = true) /\
    http_log h' = http_log h ++ concat (replicate k (failed_attempt r)) ++ tail /\
    sent h' = sent h + k + length (gets tail) /\
    ((k < 5 /\ tail = [Get r] /\ decoded (net h (sent h + k) r) = Some v) \/
     (k < 5 /\ tail = [Get r; LogError] /\ v = py_None /\
      non_transient (net h (sent h + k) r) = true) \/
     (k = 5 /\ tail = [] /\ v = py_None)).
Proof.
  intros r. unfold make_api_request. fold r.
  destruct (loop_outcomes (seq 0 5) r h) as (v & h' & k & tail & E & Hk & Hlog & Hs & Hcase).
  rewrite length_seq in Hcase. exists v, h', k, tail. repeat split; assumption.
Qed.

Lemma make_api_request_outcomes_witness :
  exists v h' k tail,
    make_api_request "u" None flaky_http = (Ok v, h') /\
    (forall i, i < k ->
       transient (net flaky_http (sent flaky_http + i) {| url := "u"; params := None |}) = true) /\
    http_log h' =
      http_log flaky_http ++
      concat (replicate k (failed_attempt {| url := "u"; params := None |})) ++ tail /\
    sent h' = sent flaky_http + k + length (gets tail) /\
    ((k < 5 /\ tail = [Get {| url := "u"; params := None |}] /\
      decoded (net flaky_http (sent flaky_http + k) {| url := "u"; params := None |}) = Some v) \/
     (k < 5 /\ tail = [Get {| url := "u"; params := None |}; LogError] /\ v = py_None /\
      non_transient (net flaky_http (sent flaky_http + k) {| url := "u"; params := None |}) = true) \/
     (k = 5 /\ tail = [] /\ v = py_None)).
Proof. exact (make_api_request_outcomes "u" None flaky_http). Defined.

Lemma slept_app (l1 l2 : list http_event) : slept (l1 ++ l2) = slept l1 + slept l2.
Proof. unfold slept. rewrite omap_app, sum_list_with_app. reflexivity. Qed.

Lemma slept_failed_attempts (k : nat) (r : request) :
  slept (concat (replicate k (failed_attempt r))) = 2 * k.
Proof.
  induction k as [|k IH]; [reflexivity|].
  cbn [replicate concat]. rewrite slept_app, IH. unfold slept. simpl. lia.
Qed.

(** X2.  The helper sleeps two seconds after every attempt that ends in
    an HTTP error, the last one included: a call sleeps twice as many
    seconds as it logs warnings, ten at most, and when all five attempts
    fail with an HTTP error it sleeps the full ten seconds and its log ends
    with a sleep. *)
Theorem make_api_request_sleeps (u : string) (ps : option (gmap string json)) (h : Http) :
  let r := {| url := u; params := ps |} in
  let h' := snd (make_api_request u ps h) in
  (exists k, k <= 5 /\ slept (http_log h') = slept (http_log h) + 2 * k /\
     (forall i, i < k -> transient (net h (sent h + i) r) = true) /\
     (k < 5 -> transient (net h (sent h + k) r) = false)) /\
  ((forall i, i < 5 -> transient (net h (sent h + i) r) = true) ->
   slept (http_log h') = slept (http_log h) + 10 /\
   exists log, http_log h' = log ++ [Sleep 2]).
Proof.
  intros r h'. subst h'.
  destruct (loop_outcomes (seq 0 5) {| url := u; params := ps |} h)
    as (v & h' & k & tail & E & Hk & Hlog & Hs & Hcase).
  rewrite length_seq in Hcase. fold (make_api_request u ps) in E.
  fold r in Hk, Hlog, Hcase. rewrite E. cbn [snd].
  assert (Htail : slept tail = 0).
  { destruct Hcase as [(_ & -> & _)|[(_ & -> & _)|(_ & -> & _)]]; reflexivity. }
  assert (Hle : k <= 5) by (destruct Hcase as [(? & _)|[(? & _)|(? & _)]]; lia).
  assert (Hstop : k < 5 -> transient (net h (sent h + k) r) = false).
  { intros Hlt. destruct Hcase as [(_ & _ & Hd)|[(_ & _ & _ & Hn)|(? & _)]]; [| |lia].
    - destruct (net h (sent h + k) r) as [|st [b|]]; simpl in *; try discriminate.
      destruct (bool_decide (400 <= st < 600)%Z); [discriminate|reflexivity].
    - destruct (net h (sent h + k) r) as [|st [b|]]; simpl in *; try discriminate;
        [reflexivity|]. destruct (bool_decide (400 <= st < 600)%Z); [discriminate|reflexivity]. }
  split.
  - exists k. split; [exact Hle|]. split; [|split; assumption].
    rewrite Hlog, !slept_app, slept_failed_attempts, Htail. lia.
  - intros Hall.
    assert (k = 5) as ->.
    { destruct (decide (k = 5)) as [|Hne]; [assumption|].
      assert (Hlt : k < 5) by lia. specialize (Hstop Hlt). rewrite Hall in Hstop by lia.
      discriminate. }
    assert (tail = []) as ->.
    { destruct Hcase as [(? & _)|[(? & _)|(_ & -> & _)]]; [lia|lia|reflexivity]. }
    split.
    + rewrite Hlog, !slept_app, slept_failed_attempts. simpl. lia.
    + rewrite Hlog, app_nil_r.
      exists (http_log h ++ concat (replicate 4 (failed_attempt r)) ++ [Get r; LogWarning]).
      simpl. rewrite <- !app_assoc. reflexivity.
Qed.

(** X3.  A document other than [None] that the helper returns was decoded
    from the reply to the last request it sent, every earlier reply having
    been an HTTP error, and no request was sent after it. *)
Theorem make_api_request_sound (u : string) (ps : option (gmap string json)) (h : Http)
    (v : json) (h' : Http) :
  make_api_request u ps h = (Ok v, h') ->
  v <> py_None ->
  exists k, k < 5 /\
    (forall i, i < k -> transient (net h (sent h + i) {| url := u; params := ps |}) = true) /\
    decoded (net h (sent h + k) {| url := u; params := ps |}) = Some v /\
    sent h' = sent h + k + 1.
Proof.
  intros E Hv.
  destruct (loop_outcomes (seq 0 5) {| url := u; params := ps |} h)
    as (v1 & h1 & k & tail & E1 & Hk & Hlog & Hs & Hcase).
  rewrite length_seq in Hcase. fold (make_api_request u ps) in E1.
  rewrite E in E1. injection E1 as <- <-.
  destruct Hcase as [(Hlt & -> & Hd)|[(_ & _ & -> & _)|(_ & _ & ->)]]; [|contradiction..].
  exists k. split; [exact Hlt|]. split; [exact Hk|]. split; [exact Hd|].
  rewrite Hs. reflexivity.
Qed.

Lemma make_api_request_sound_witness :
  exists k, k < 5 /\
    (forall i, i < k ->
       transient (net flaky_http (sent flaky_http + i) {| url := "u"; params := None |}) = true) /\
    decoded (net flaky_http (sent flaky_http + k) {| url := "u"; params := None |})
      = Some (JArr []) /\
    sent (snd (make_api_request "u" None flaky_http)) = sent flaky_http + k + 1.
Proof.
  apply (make_api_request_sound "u" None flaky_http (JArr [])
           (snd (make_api_request "u" None flaky_http))).
  - reflexivity.
  - discriminate.
Defined.

Lemma make_api_request_sleeps_witness :
  slept (http_log (snd (make_api_request "u" None overloaded_http))) =
    slept (http_log overloaded_http) + 10 /\
  exists log, http_log (snd (make_api_request "u" None overloaded_http)) = log ++ [Sleep 2].
Proof.
  destruct (make_api_request_sleeps "u" None overloaded_http) as [_ H].
  apply H. intros i Hi. reflexivity.
Defined.

(** X4.  The two list fetches: the top list asks [/coins/markets] for the
    first page, in US dollars, by market capitalisation, [limit] entries
    and no sparkline, and nothing else; the trending list asks
    [/search/trending] without parameters.  Each sends between one and five
    requests, all of them the same. *)
Theorem list_fetch_requests (limit : Z) (h : Http) :
  let ps := get_top_cryptos_params limit in
  dom ps = {["vs_currency"; "order"; "per_page"; "page"; "sparkline"]} /\
  ps !! "vs_currency" = Some (JStr "usd") /\
  ps !! "order" = Some (JStr "market_cap_desc") /\
  ps !! "per_page" = Some (JInt limit) /\
  ps !! "page" = Some (JInt 1) /\
  ps !! "sparkline" = Some (JBool false) /\
  (exists v h' n,
     get_top_cryptos limit h = (Ok v, h') /\ 1 <= n <= 5 /\
     gets (http_log h') =
       gets (http_log h) ++
       replicate n {| url := COINGECKO_API_URL +:+ "/coins/markets"; params := Some ps |}) /\
  (exists v h' n,
     get_trending_cryptos h = (Ok v, h') /\ 1 <= n <= 5 /\
     gets (http_log h') =
       gets (http_log h) ++
       replicate n {| url := COINGECKO_API_URL +:+ "/search/trending"; params := None |}).
Proof.
  intros ps. subst ps.
  split; [unfold get_top_cryptos_params; rewrite !dom_insert_L, dom_empty_L; set_solver|].
  do 5 (split; [reflexivity|]).
  split.
  - destruct (make_api_request_gets (COINGECKO_API_URL +:+ "/coins/markets")
                (Some (get_top_cryptos_params limit)) h) as (v & h' & n & E & Hn & _ & _ & Hg).
    exists v, h', n. split; [exact E|]. split; [exact Hn|exact Hg].
  - destruct (make_api_request_gets (COINGECKO_API_URL +:+ "/search/trending") None h)
      as (v & h' & n & E & Hn & _ & _ & Hg).
    exists v, h', n. split; [exact E|]. split; [exact Hn|exact Hg].
Qed.

(** * Further properties of the renderers *)

Lemma crypto_button_not_record `{PyText} (crypto : json) :
  asset_record crypto = false -> crypto_button crypto = Raise AttributeError.
Proof.
  destruct crypto as [| | | | | |m]; try reflexivity. simpl.
  unfold crypto_button. simpl.
  destruct (m !! "symbol") as [[]|]; try discriminate; reflexivity.
Qed.

Lemma crypto_button_cases `{PyText} (crypto : json) :
  (exists b, crypto_button crypto = Ok b) \/ crypto_button crypto = Raise AttributeError.
Proof.
  destruct (asset_record crypto) eqn:E.
  - left. apply crypto_button_asset_record. exact E.
  - right. apply crypto_button_not_record. exact E.
Qed.

Lemma crypto_buttons_bad `{PyText} (l : list json) :
  forallb asset_record l = false -> omap_list crypto_button l = Raise AttributeError.
Proof.
  induction l as [|x l IH]; simpl; [discriminate|]. intros E.
  destruct (asset_record x) eqn:Ex.
  - destruct (crypto_button_asset_record x Ex) as [b ->]. simpl in *.
    rewrite (IH E). reflexivity.
  - rewrite (crypto_button_not_record x Ex). reflexivity.
Qed.

Lemma omap_list_pairs_raise {A B} (f : A -> outcome B) (e : exn) (l : list A) :
  (forall x, (exists b, f x = Ok b) \/ f x = Raise e) ->
  omap_list f l = Raise e ->
  omap_list (omap_list f) (pairs l) = Raise e.
Proof.
  intros Hf. induction l as [|x|x y l IH] using list_pair_ind; intros E.
  - discriminate E.
  - simpl in *. destruct (f x); simpl in *; [discriminate|].
    injection E as ->. reflexivity.
  - simpl pairs. simpl omap_list in *.
    destruct (Hf x) as [[b Hx]|Hx]; rewrite Hx in *; simpl in *; [|reflexivity].
    destruct (Hf y) as [[c Hy]|Hy]; rewrite Hy in *; simpl in *; [|reflexivity].
    destruct (omap_list f l) as [bs|e'] eqn:El; simpl in *; [discriminate E|].
    assert (e' = e) as -> by congruence. rewrite (IH eq_refl). reflexivity.
Qed.

Lemma show_crypto_list_bad_list `{PyText} (update : Update) (title : string)
    (l : list json) (w : World) :
  forallb asset_record l = false ->
  show_crypto_list update (JArr l) title w = (Raise AttributeError, w).
Proof.
  intros E. unfold show_crypto_list, bind, lift. cbn [len].
  assert (Hrows : omap_list (crypto_row (JArr l)) (range 0 (length l) 2)
                  = Raise AttributeError).
  { rewrite <- (omap_list_pairs_raise crypto_button AttributeError l
                  crypto_button_cases (crypto_buttons_bad l E)).
    rewrite <- slices_are_pairs, omap_list_fmap. reflexivity. }
  rewrite Hrows. reflexivity.
Qed.

Lemma show_crypto_list_nonempty_string `{PyText} (update : Update) (title : string)
    (c : ascii) (s : string) (w : World) :
  show_crypto_list update (JStr (String c s)) title w = (Raise AttributeError, w).
Proof.
  unfold show_crypto_list, bind, lift. cbn [len String.length].
  destruct (range_from_zero (String.length s)) as [rest ->].
  reflexivity.
Qed.

(** On a value that is not renderable the list renderer raises and sends
    nothing. *)
Lemma show_crypto_list_not_renderable `{PyText} (update : Update) (title : string)
    (v : json) (w : World) :
  renderable v = false ->
  exists e, show_crypto_list update v title w = (Raise e, w).
Proof.
  intros Hv. destruct v as [| | | |s|l|m]; simpl in Hv.
  1-4: eexists; reflexivity.
  - destruct s as [|c s]; [discriminate Hv|].
    eexists. apply show_crypto_list_nonempty_string.
  - eexists. apply show_crypto_list_bad_list. exact Hv.
  - eexists. apply show_crypto_list_record. apply bool_decide_eq_false in Hv. exact Hv.
Qed.

(** X5.  What the list renderer accepts: on a list of asset records, and
    on a string or a record with nothing in it, it sends one message whose
    keyboard ends with the back row; on every other value (the [None] of a
    failed fetch, a number, a record that is not empty, a list with an
    entry that is no asset record) it raises and sends nothing. *)
Theorem show_crypto_list_renderable `{PyText} (data title : string) (v : json) (w : World) :
  (renderable v = true ->
   exists rows,
     show_crypto_list (CallbackQuery data) v title w =
       (Ok tt,
        {| user_data := user_data w; http := http w;
           chat := chat w ++ [EditMessageText title (Some (rows ++ [back_row]))] |})) /\
  (renderable v = false ->
   exists e, show_crypto_list (CallbackQuery data) v title w = (Raise e, w)).
Proof.
  split; intros Hv.
  - apply show_crypto_list_on_renderable. exact Hv.
  - apply show_crypto_list_not_renderable. exact Hv.
Qed.

Lemma show_crypto_list_renderable_witness :
  exists e,
    @show_crypto_list ascii_text (CallbackQuery "top100") py_None "Top 100 Cryptocurrencies:"
      (fresh_world ∅ dead_http) = (Raise e, fresh_world ∅ dead_http).
Proof.
  destruct (@show_crypto_list_renderable ascii_text "top100" "Top 100 Cryptocurrencies:"
              py_None (fresh_world ∅ dead_http)) as [_ H].
  apply H. reflexivity.
Defined.

(** X6.  When the quote fetch delivers a value that counts as false (the
    [None] of a failed fetch, an empty record or list, zero), the quote
    renderer sends the single unavailable notice, without keyboard and
    without the options message, and returns. *)
Theorem show_crypto_details_unavailable `{PyText} (data crypto_id currency : string)
    (w : World) (v : json) (h' : Http) :
  get_crypto_details crypto_id currency (http w) = (Ok v, h') ->
  truthy v = false ->
  show_crypto_details (CallbackQuery data) crypto_id currency w =
    (Ok tt,
     {| user_data := user_data w; http := h';
        chat := chat w ++
          [EditMessageText "🚫 Unable to retrieve cryptocurrency details." None] |}).
Proof.
  intros E Hv. destruct w as [ud h c]. cbn [user_data http chat] in *.
  unfold show_crypto_details. rewrite (bind_run_http _ _ _ _ _ _ _ E), Hv.
  reflexivity.
Qed.

Lemma show_crypto_details_unavailable_witness :
  @show_crypto_details ascii_text (CallbackQuery "currency:usd") "bitcoin" "usd"
    (fresh_world ∅ dead_http) =
    (Ok tt,
     {| user_data := user_data (fresh_world ∅ dead_http);
        http := snd (get_crypto_details "bitcoin" "usd" dead_http);
        chat := chat (fresh_world ∅ dead_http) ++
          [EditMessageText "🚫 Unable to retrieve cryptocurrency details." None] |}).
Proof.
  apply (@show_crypto_details_unavailable ascii_text "currency:usd" "bitcoin" "usd"
           (fresh_world ∅ dead_http) py_None (snd (get_crypto_details "bitcoin" "usd" dead_http)));
    reflexivity.
Defined.

(** X7.  When the quote fetch delivers a value that counts as true and is
    not a record (a list that is not empty, a string, a number, [true]),
    the quote renderer raises an [AttributeError] at its first lookup:
    nothing is sent to the chat. *)
Theorem show_crypto_details_not_a_record `{PyText} (data crypto_id currency : string)
    (w : World) (v : json) (h' : Http) :
  get_crypto_details crypto_id currency (http w) = (Ok v, h') ->
  truthy v = true ->
  (forall m, v <> JObj m) ->
  show_crypto_details (CallbackQuery data) crypto_id currency w =
    (Raise AttributeError, {| user_data := user_data w; http := h'; chat := chat w |}).
Proof.
  intros E Hv Hrec. destruct w as [ud h c]. cbn [user_data http chat] in *.
  unfold show_crypto_details. rewrite (bind_run_http _ _ _ _ _ _ _ E), Hv.
  destruct v as [| | | | | |m]; try reflexivity.
  exfalso. exact (Hrec m eq_refl).
Qed.

Lemma show_crypto_details_not_a_record_witness :
  @show_crypto_details ascii_text (CallbackQuery "currency:usd") "bitcoin" "usd"
    (fresh_world ∅ (steady_http two_assets)) =
    (Raise AttributeError,
     {| user_data := user_data (fresh_world ∅ (steady_http two_assets));
        http := snd (get_crypto_details "bitcoin" "usd" (steady_http two_assets));
        chat := chat (fresh_world ∅ (steady_http two_assets)) |}).
Proof.
  apply (@show_crypto_details_not_a_record ascii_text "currency:usd" "bitcoin" "usd"
           (fresh_world ∅ (steady_http two_assets)) two_assets
           (snd (get_crypto_details "bitcoin" "usd" (steady_http two_assets)))).
  - reflexivity.
  - reflexivity.
  - intros m. discriminate.
Defined.

(** * Further properties of the handlers *)

(** ** What the handlers send *)

Lemma emits_ret Q {A} (a : A) : emits Q (ret a).
Proof. intros w. exists []. rewrite app_nil_r. split; [reflexivity|constructor]. Qed.

Lemma emits_raise Q {A} (e : exn) : emits Q (@raise World A e).
Proof. intros w. exists []. rewrite app_nil_r. split; [reflexivity|constructor]. Qed.

Lemma emits_lift Q {A} (o : outcome A) : emits Q (lift o).
Proof. intros w. exists []. rewrite app_nil_r. split; [reflexivity|constructor]. Qed.

Lemma emits_bind Q {A B} (m : M World A) (k : A -> M World B) :
  emits Q m -> (forall a, emits Q (k a)) -> emits Q (bind m k).
Proof.
  intros Hm Hk w. unfold bind. destruct (Hm w) as (evs & E & HQ).
  destruct (m w) as [[a|e] w1]; simpl in *.
  - destruct (Hk a w1) as (evs' & E' & HQ').
    exists (evs ++ evs'). rewrite E', E, app_assoc. split; [reflexivity|].
    apply Forall_app. split; assumption.
  - exists evs. split; assumption.
Qed.

Lemma emits_bind_lift Q {A B} (o : outcome A) (k : A -> M World B) :
  (forall a, o = Ok a -> emits Q (k a)) -> emits Q (bind (lift o) k).
Proof.
  intros Hk. destruct o as [a|e].
  - intros w. rewrite bind_lift_Ok. apply Hk. reflexivity.
  - intros w. rewrite bind_lift_Raise. apply emits_raise.
Qed.

Lemma emits_chat_emit (Q : chat_event -> Prop) (e : chat_event) : Q e -> emits Q (chat_emit e).
Proof. intros He w. exists [e]. split; [reflexivity|]. constructor; [exact He|constructor]. Qed.

Lemma emits_run_http Q {A} (m : M Http A) : emits Q (run_http m).
Proof.
  intros w. unfold run_http. destruct (m (http w)). exists []. rewrite app_nil_r.
  split; [reflexivity|constructor].
Qed.

Lemma emits_user_data_get Q (key : string) : emits Q (user_data_get key).
Proof. intros w. exists []. rewrite app_nil_r. split; [reflexivity|constructor]. Qed.

Lemma emits_user_data_set Q (key value : string) : emits Q (user_data_set key value).
Proof. intros w. exists []. simpl. rewrite app_nil_r. split; [reflexivity|constructor]. Qed.

Lemma emits_edit_message_text (Q : chat_event -> Prop) update text markup :
  Q (EditMessageText text markup) -> emits Q (edit_message_text update text markup).
Proof.
  intros He. unfold edit_message_text.
  destruct (callback_query update); [apply emits_chat_emit; exact He|apply emits_raise].
Qed.

Lemma emits_query_message_reply_text (Q : chat_event -> Prop) update text markup :
  Q (ReplyText text markup) -> emits Q (query_message_reply_text update text markup).
Proof.
  intros He. unfold query_message_reply_text.
  destruct (callback_query update); [apply emits_chat_emit; exact He|apply emits_raise].
Qed.

Lemma emits_message_reply_text (Q : chat_event -> Prop) update text markup :
  Q (ReplyText text markup) -> emits Q (message_reply_text update text markup).
Proof.
  intros He. unfold message_reply_text.
  destruct update; [apply emits_raise|apply emits_chat_emit; exact He|apply emits_raise].
Qed.

(** One step of a proof that a handler only emits events satisfying [Q];
    [leaf] proves [Q] of a given event. *)
#[local] Ltac emits_step leaf :=
  first
    [ apply emits_ret | apply emits_raise | apply emits_lift | apply emits_run_http
    | apply emits_user_data_get | apply emits_user_data_set
    | apply emits_chat_emit; leaf
    | apply emits_edit_message_text; leaf
    | apply emits_query_message_reply_text; leaf
    | apply emits_message_reply_text; leaf
    | apply emits_bind_lift; intros ? ?
    | apply emits_bind; [|intros ?]
    | match goal with
      | |- emits _ (if ?b then _ else _) => destruct b eqn:?
      | |- emits _ (match ?o with Some _ => _ | None => _ end) => destruct o eqn:?
      end ].

(** ** What the handlers leave alone on the HTTP side *)

Lemma keeps_http_ret {A} (a : A) : keeps_http (ret a).
Proof. intros w. reflexivity. Qed.

Lemma keeps_http_raise {A} (e : exn) : keeps_http (@raise World A e).
Proof. intros w. reflexivity. Qed.

Lemma keeps_http_lift {A} (o : outcome A) : keeps_http (lift o).
Proof. intros w. reflexivity. Qed.

Lemma keeps_http_bind {A B} (m : M World A) (k : A -> M World B) :
  keeps_http m -> (forall a, keeps_http (k a)) -> keeps_http (bind m k).
Proof.
  intros Hm Hk w. unfold bind. specialize (Hm w).
  destruct (m w) as [[a|e] w1]; simpl in *; [|exact Hm].
  rewrite Hk. exact Hm.
Qed.

Lemma keeps_http_chat_emit (e : chat_event) : keeps_http (chat_emit e).
Proof. intros w. reflexivity. Qed.

Lemma keeps_http_user_data_get (key : string) : keeps_http (user_data_get key).
Proof. intros w. reflexivity. Qed.

Lemma keeps_http_user_data_set (key value : string) : keeps_http (user_data_set key value).
Proof. intros w. reflexivity. Qed.

Lemma keeps_http_edit_message_text update text markup :
  keeps_http (edit_message_text update text markup).
Proof. intros w. unfold edit_message_text. destruct (callback_query update); reflexivity. Qed.

Lemma keeps_http_query_message_reply_text update text markup :
  keeps_http (query_message_reply_text update text markup).
Proof.
  intros w. unfold query_message_reply_text. destruct (callback_query update); reflexivity.
Qed.

Lemma keeps_http_message_reply_text update text markup :
  keeps_http (message_reply_text update text markup).
Proof. intros w. unfold message_reply_text. destruct update; reflexivity. Qed.

Create HintDb keeps_http.

#[local] Hint Resolve keeps_http_ret keeps_http_raise keeps_http_lift keeps_http_chat_emit
  keeps_http_user_data_get keeps_http_user_data_set keeps_http_edit_message_text
  keeps_http_query_message_reply_text keeps_http_message_reply_text : keeps_http.

#[local] Ltac keeps_http :=
  repeat first
    [ progress auto with keeps_http
    | apply keeps_http_bind; [|intros ?]
    | match goal with
      | |- keeps_http (if ?b then _ else _) => destruct b
      | |- keeps_http (match ?o with Some _ => _ | None => _ end) => destruct o
      end ].

Lemma keeps_http_show_main_menu update is_comparing :
  keeps_http (show_main_menu update is_comparing).
Proof. unfold show_main_menu. keeps_http. Qed.

Lemma keeps_http_show_crypto_list `{PyText} update cryptos title :
  keeps_http (show_crypto_list update cryptos title).
Proof. unfold show_crypto_list. keeps_http. Qed.

Lemma keeps_http_show_currency_options `{PyText} update :
  keeps_http (show_currency_options update).
Proof. unfold show_currency_options. keeps_http. Qed.

#[local] Hint Resolve keeps_http_show_main_menu keeps_http_show_crypto_list
  keeps_http_show_currency_options : keeps_http.

(** ** The main menu *)

(** X8.  [start] on a button press or on a message returns [MAIN_MENU]
    and sends the main menu with its four rows, editing the message for a
    press and replying to a message; on an update that carries neither (an
    edited message) it raises an [AttributeError] and sends nothing.  In
    every case it touches neither the dictionary nor the HTTP side.
    Pressing "Main Menu" is [start] run after the press is acknowledged. *)
Theorem start_shows_main_menu (update : Update) (w : World) :
  start update w =
    match update with
    | CallbackQuery _ =>
        (Ok (Some MAIN_MENU),
         {| user_data := user_data w; http := http w;
            chat := chat w ++ [EditMessageText welcome_text (Some main_menu_keyboard)] |})
    | Message _ =>
        (Ok (Some MAIN_MENU),
         {| user_data := user_data w; http := http w;
            chat := chat w ++ [ReplyText welcome_text (Some main_menu_keyboard)] |})
    | OtherUpdate => (Raise AttributeError, w)
    end /\
  (forall (T : PyText),
     button_click (CallbackQuery "main_menu") w =
     start (CallbackQuery "main_menu") (answered w)).
Proof. split; [destruct update; reflexivity|intros T; reflexivity]. Qed.

Lemma not_recognised (data : string) :
  recognised data = false ->
  (data <> "main_menu" /\ data <> "top100" /\ data <> "quit" /\ data <> "trending" /\
   data <> "search" /\ data <> "compare_selection") /\
  startswith data "crypto:" = false /\ startswith data "currency:" = false.
Proof.
  unfold recognised. intros E.
  apply orb_false_iff in E as [E Hu]. apply orb_false_iff in E as [E Hc].
  apply bool_decide_eq_false in E.
  split; [|split; assumption].
  repeat split; intros ->; apply E; set_solver.
Qed.

(** X9.  A payload that the handler has no branch for (none of the six
    literals, no ['crypto:'] or ['currency:'] prefix) is acknowledged, gets
    the invalid-selection notice and then the main menu in its place, and
    returns [MAIN_MENU]; nothing is stored and nothing is fetched. *)
Theorem button_click_unrecognised `{PyText} (data : string) (w : World) :
  recognised data = false ->
  button_click (CallbackQuery data) w =
    (Ok (Some MAIN_MENU),
     {| user_data := user_data w; http := http w;
        chat := chat w ++
          [Answer;
           EditMessageText "Invalid selection. Returning to main menu." None;
           EditMessageText welcome_text (Some main_menu_keyboard)] |}).
Proof.
  intros Hr. destruct (not_recognised data Hr) as ((N1 & N2 & N3 & N4 & N5 & N6) & Hc & Hu).
  enter_click. repeat (case_bool_decide; [contradiction|]).
  rewrite Hc, Hu. cbv iota.
  rewrite bind_edit_message_text. unfold show_main_menu. cbv beta iota delta [callback_query].
  rewrite bind_edit_message_text. unfold ret.
  cbn [answered user_data http chat negb]. rewrite <- !app_assoc. reflexivity.
Qed.

Lemma button_click_unrecognised_witness :
  @button_click ascii_text (CallbackQuery "hello") (fresh_world ∅ market_http) =
    (Ok (Some MAIN_MENU),
     {| user_data := user_data (fresh_world ∅ market_http);
        http := http (fresh_world ∅ market_http);
        chat := chat (fresh_world ∅ market_http) ++
          [Answer;
           EditMessageText "Invalid selection. Returning to main menu." None;
           EditMessageText welcome_text (Some main_menu_keyboard)] |}).
Proof.
  apply (@button_click_unrecognised ascii_text "hello" (fresh_world ∅ market_http)).
  reflexivity.
Defined.

(** ** The buttons that are sent *)

Lemma omap_list_Forall {A B} (f : A -> outcome B) (P : B -> Prop) (l : list A) bs :
  (forall x b, f x = Ok b -> P b) ->
  omap_list f l = Ok bs -> Forall P bs.
Proof.
  intros Hf. revert bs. induction l as [|x l IH]; simpl; intros bs E.
  - injection E as <-. constructor.
  - destruct (f x) as [b|] eqn:Ex; simpl in E; [|discriminate E].
    destruct (omap_list f l) as [bs'|]; simpl in E; [|discriminate E].
    injection E as <-. constructor; [exact (Hf x b Ex)|apply IH; reflexivity].
Qed.

Lemma crypto_button_payload `{PyText} (crypto : json) b :
  crypto_button crypto = Ok b -> recognised (callback_data b) = true.
Proof.
  unfold crypto_button. intros E.
  destruct crypto as [| | | | | |m]; try discriminate E. cbn [dict_get obind] in E.
  destruct (str_upper (default (JStr "Unknown") (m !! "symbol"))); [|discriminate E].
  cbn [obind] in E. injection E as <-. cbn [callback_data].
  unfold recognised. rewrite (startswith_app_true "crypto:").
  rewrite orb_true_r. reflexivity.
Qed.

Lemma crypto_rows_payloads `{PyText} (cryptos : json) (idxs : list nat) rows :
  omap_list (crypto_row cryptos) idxs = Ok rows ->
  Forall (fun b => recognised (callback_data b) = true) (concat rows).
Proof.
  intros E. apply Forall_concat.
  apply (omap_list_Forall (crypto_row cryptos) _ idxs rows); [|exact E].
  intros i row Hrow. unfold crypto_row in Hrow.
  destruct (slice cryptos i (i + 2)) as [part|]; [|discriminate Hrow].
  cbn [obind] in Hrow.
  apply (omap_list_Forall crypto_button _ part row); [|exact Hrow].
  intros c b. apply crypto_button_payload.
Qed.

#[local] Ltac buttons_leaf :=
  unfold recognised_buttons; cbn [buttons_of];
  simpl; repeat (constructor; [reflexivity|]); constructor.

Lemma emits_buttons_show_crypto_list `{PyText} update cryptos title :
  emits recognised_buttons (show_crypto_list update cryptos title).
Proof.
  unfold show_crypto_list.
  apply emits_bind_lift; intros n _.
  apply emits_bind_lift; intros rows Hrows.
  apply emits_edit_message_text.
  unfold recognised_buttons. cbn [buttons_of]. rewrite concat_app.
  apply Forall_app. split; [exact (crypto_rows_payloads _ _ _ Hrows)|].
  simpl. constructor; [reflexivity|constructor].
Qed.

Lemma emits_buttons_show_main_menu update is_comparing :
  emits recognised_buttons (show_main_menu update is_comparing).
Proof. unfold show_main_menu. repeat emits_step buttons_leaf. Qed.

Lemma emits_buttons_show_crypto_details `{PyText} update crypto_id currency :
  emits recognised_buttons (show_crypto_details update crypto_id currency).
Proof. unfold show_crypto_details. repeat emits_step buttons_leaf. Qed.

Lemma emits_buttons_show_currency_options `{PyText} update :
  emits recognised_buttons (show_currency_options update).
Proof. unfold show_currency_options. repeat emits_step buttons_leaf. Qed.

(** X10.  The handlers only ever append to the chat transcript, and every
    button of every keyboard that [start] or the button handler sends
    carries a payload that the button handler has a branch for: a user who
    only presses what is shown never meets the invalid-selection branch. *)
Theorem sent_buttons_are_recognised `{PyText} (update : Update) (w : World) :
  (exists evs,
     chat (snd (button_click update w)) = chat w ++ evs /\ Forall recognised_buttons evs) /\
  (exists evs,
     chat (snd (start update w)) = chat w ++ evs /\ Forall recognised_buttons evs).
Proof.
  split.
  - revert w. change (emits recognised_buttons (button_click update)).
    unfold button_click. destruct update as [data|text|];
      cbv beta iota delta [callback_query]; [|apply emits_raise..].
    repeat first
      [ apply emits_buttons_show_crypto_list
      | apply emits_buttons_show_main_menu
      | apply emits_buttons_show_crypto_details
      | apply emits_buttons_show_currency_options
      | emits_step buttons_leaf ].
  - revert w. change (emits recognised_buttons (start update)).
    unfold start. apply emits_bind; [apply emits_buttons_show_main_menu|intros ?].
    apply emits_ret.
Qed.

Lemma emits_show_crypto_list (Q : chat_event -> Prop) `{PyText} update cryptos title :
  (forall markup, Q (EditMessageText title markup)) ->
  emits Q (show_crypto_list update cryptos title).
Proof. intros HQ. unfold show_crypto_list. repeat emits_step ltac:(apply HQ). Qed.

#[local] Ltac notice_leaf :=
  unfold not_invalid_notice, invalid_notice; cbn [text_of];
  first [ discriminate
        | let Heq := fresh "Heq" in
          intros Heq; injection Heq as Heq; vm_compute in Heq; discriminate Heq ].

#[local] Ltac no_branch Hr :=
  exfalso; unfold recognised in Hr;
  repeat match goal with
         | E : startswith _ _ = false |- _ => rewrite E in Hr; clear E
         end;
  rewrite !orb_false_r in Hr; apply bool_decide_eq_true in Hr;
  repeat (apply elem_of_cons in Hr as [->|Hr];
          [match goal with
           | E : bool_decide (?x = ?x) = false |- _ =>
               rewrite bool_decide_eq_true_2 in E by reflexivity; discriminate E
           end|]);
  apply elem_of_nil in Hr; exact Hr.

(** X11.  A payload that the handler has a branch for never brings up
    the invalid-selection notice, whatever the network delivers and
    whether the handler returns or raises. *)
Theorem recognised_payload_never_invalid `{PyText} (data : string) (w : World) :
  recognised data = true ->
  exists evs,
    chat (snd (button_click (CallbackQuery data) w)) = chat w ++ evs /\
    Forall not_invalid_notice evs.
Proof.
  intros Hr. revert w.
  change (emits not_invalid_notice (button_click (CallbackQuery data))).
  unfold button_click. cbv beta iota delta [callback_query].
  apply emits_bind; [apply emits_chat_emit; notice_leaf|intros _].
  repeat first
    [ solve [no_branch Hr]
    | apply emits_show_crypto_list; intros ?; notice_leaf
    | progress (try unfold show_main_menu; try unfold show_crypto_details;
                try unfold show_currency_options)
    | emits_step notice_leaf ].
Qed.

Lemma recognised_payload_never_invalid_witness :
  exists evs,
    chat (snd (@button_click ascii_text (CallbackQuery "crypto:bitcoin")
                 (fresh_world ∅ market_http))) =
      chat (fresh_world ∅ market_http) ++ evs /\
    Forall not_invalid_notice evs.
Proof.
  apply (@recognised_payload_never_invalid ascii_text "crypto:bitcoin"
           (fresh_world ∅ market_http)).
  reflexivity.
Defined.

(** ** Requests per event *)

Lemma py_not_no_asset (ud : gmap string string) :
  py_not (ud !! "crypto") = true -> no_asset ud.
Proof.
  unfold no_asset. destruct (ud !! "crypto") as [s|]; simpl; [|auto].
  intros E. apply bool_decide_eq_true in E as ->. auto.
Qed.

Lemma button_click_keeps_http `{PyText} (data : string) :
  data <> "top100" -> data <> "trending" -> startswith data "currency:" = false ->
  data <> "compare_selection" ->
  keeps_http (button_click (CallbackQuery data)).
Proof.
  intros N1 N2 Hu N3. unfold button_click. cbv beta iota delta [callback_query].
  apply keeps_http_bind; [auto with keeps_http|intros _].
  repeat first
    [ progress auto with keeps_http
    | apply keeps_http_bind; [|intros ?]
    | match goal with
      | |- keeps_http (if bool_decide ?P then _ else _) =>
          destruct (bool_decide_reflect P); [try contradiction|]
      | |- keeps_http (if startswith ?s ?p then _ else _) =>
          destruct (startswith s p) eqn:?; [try congruence|]
      end ].
Qed.

Lemma button_click_no_fetch `{PyText} (data : string) (w : World) :
  fetching data (user_data w) = false ->
  http (snd (button_click (CallbackQuery data) w)) = http w.
Proof.
  unfold fetching. intros E.
  apply orb_false_iff in E as [E Hcmp]. apply orb_false_iff in E as [E Hu].
  apply orb_false_iff in E as [N1 N2].
  apply bool_decide_eq_false in N1, N2.
  destruct (decide (data = "compare_selection")) as [->|N3].
  - rewrite bool_decide_eq_true_2 in Hcmp by reflexivity. cbn [andb] in Hcmp.
    apply negb_false_iff in Hcmp.
    rewrite (button_click_compare_guard w (py_not_no_asset _ Hcmp)). reflexivity.
  - apply (button_click_keeps_http data N1 N2 Hu N3).
Qed.

(** X12.  One event sends at most five HTTP requests, all of them the
    same request, and leaves the network as it is; it sends at least one
    exactly on the payloads that fetch (the two lists, a currency
    selection, "Compare" with an asset chosen).  A text message and every
    other payload send none. *)
Theorem button_click_requests `{PyText} (update : Update) (w : World) :
  let w' := snd (button_click update w) in
  exists n r,
    n <= 5 /\
    gets (http_log (http w')) = gets (http_log (http w)) ++ replicate n r /\
    sent (http w') = sent (http w) + n /\
    net (http w') = net (http w) /\
    (1 <= n <->
     exists data, update = CallbackQuery data /\ fetching data (user_data w) = true).
Proof.
  intros w'. subst w'.
  assert (Hnone : forall w1, http w1 = http w ->
            (forall data, update = CallbackQuery data -> fetching data (user_data w) = false) ->
            exists n r, n <= 5 /\
              gets (http_log (http w1)) = gets (http_log (http w)) ++ replicate n r /\
              sent (http w1) = sent (http w) + n /\ net (http w1) = net (http w) /\
              (1 <= n <->
               exists data, update = CallbackQuery data /\ fetching data (user_data w) = true)).
  { intros w1 -> Hf. exists 0, trending_request. simpl. rewrite app_nil_r, Nat.add_0_r.
    repeat split; try reflexivity; try lia.
    intros (data & -> & E). rewrite (Hf data eq_refl) in E. discriminate E. }
  assert (Hsome : forall data r v h' n w1,
            update = CallbackQuery data -> fetching data (user_data w) = true ->
            make_api_request (url r) (params r) (http w) = (Ok v, h') ->
            1 <= n <= 5 -> sent h' = sent (http w) + n -> net h' = net (http w) ->
            gets (http_log h') = gets (http_log (http w)) ++ replicate n r ->
            http w1 = h' ->
            exists n r, n <= 5 /\
              gets (http_log (http w1)) = gets (http_log (http w)) ++ replicate n r /\
              sent (http w1) = sent (http w) + n /\ net (http w1) = net (http w) /\
              (1 <= n <->
               exists data, update = CallbackQuery data /\ fetching data (user_data w) = true)).
  { intros data r v h' n w1 -> Hf _ Hn Hs Hnet Hg ->. exists n, r.
    split; [lia|]. split; [exact Hg|]. split; [exact Hs|]. split; [exact Hnet|].
    split; [intros _; exists data; split; [reflexivity|exact Hf]|intros _; lia]. }
  destruct update as [data|text|].
  2,3: (apply Hnone; [reflexivity|]; intros data [=]).
  destruct (fetching data (user_data w)) eqn:Hf.
  2:{ apply Hnone; [apply button_click_no_fetch; exact Hf|].
      intros d [= <-]. exact Hf. }
  pose proof Hf as Hf'. unfold fetching in Hf'.
  destruct (decide (data = "top100")) as [->|N1].
  { destruct (make_api_request_gets (url markets_request) (params markets_request) (http w))
      as (v & h' & n & E & Hn & Hs & Hnet & Hg).
    apply (Hsome "top100" markets_request v h' n); try assumption; try reflexivity.
    rewrite (button_click_top100 w v h' E).
    match goal with |- http (snd (?m ?w1)) = _ =>
      assert (K : keeps_http m) by keeps_http; rewrite (K w1) end.
    reflexivity. }
  destruct (decide (data = "trending")) as [->|N2].
  { destruct (make_api_request_gets (url trending_request) (params trending_request) (http w))
      as (v & h' & n & E & Hn & Hs & Hnet & Hg).
    apply (Hsome "trending" trending_request v h' n); try assumption; try reflexivity.
    rewrite (button_click_trending w v h' E).
    match goal with |- http (snd (?m ?w1)) = _ =>
      assert (K : keeps_http m) by keeps_http; rewrite (K w1) end.
    reflexivity. }
  rewrite (bool_decide_eq_false_2 _ N1), (bool_decide_eq_false_2 _ N2) in Hf'.
  cbn [orb] in Hf'.
  destruct (startswith data "currency:") eqn:Hu.
  { destruct (button_click_currency data w Hu) as (currency & _ & Eb).
    set (crypto_id := default "bitcoin" (user_data w !! "crypto")) in *.
    destruct (make_api_request_gets (url (quote_request crypto_id currency))
                (params (quote_request crypto_id currency)) (http w))
      as (v & h' & n & E & Hn & Hs & Hnet & Hg).
    apply (Hsome data (quote_request crypto_id currency) v h' n);
      try assumption; try reflexivity.
    rewrite Eb. unfold bind.
    destruct (show_crypto_details_http data crypto_id currency (answered w) v h' E) as [Hh _].
    destruct (show_crypto_details (CallbackQuery data) crypto_id currency (answered w))
      as [[[]|e] w1]; exact Hh. }
  cbn [orb] in Hf'. apply andb_true_iff in Hf' as [Hd Hset].
  apply bool_decide_eq_true in Hd as ->. apply negb_true_iff in Hset.
  destruct (user_data w !! "crypto") as [crypto_id|] eqn:Hud; [|discriminate Hset].
  cbn [py_not] in Hset. apply bool_decide_eq_false in Hset.
  destruct (make_api_request_gets (url markets_request) (params markets_request) (http w))
    as (v & h' & n & E & Hn & Hs & Hnet & Hg).
  apply (Hsome "compare_selection" markets_request v h' n); try assumption; try reflexivity.
  rewrite (button_click_compare w crypto_id v h' Hud Hset E).
  match goal with |- http (snd (?m ?w1)) = _ =>
    assert (K : keeps_http m) by keeps_http; rewrite (K w1) end.
  reflexivity.
Qed.

Lemma button_click_requests_witness :
  exists n r,
    n <= 5 /\
    gets (http_log (http (snd (@button_click ascii_text (CallbackQuery "top100")
                                 (fresh_world ∅ market_http))))) =
      gets (http_log (http (fresh_world ∅ market_http))) ++ replicate n r /\
    sent (http (snd (@button_click ascii_text (CallbackQuery "top100")
                       (fresh_world ∅ market_http)))) =
      sent (http (fresh_world ∅ market_http)) + n /\
    net (http (snd (@button_click ascii_text (CallbackQuery "top100")
                      (fresh_world ∅ market_http)))) =
      net (http (fresh_world ∅ market_http)) /\
    (1 <= n <->
     exists data, CallbackQuery "top100" = CallbackQuery data /\
       fetching data (user_data (fresh_world ∅ market_http)) = true).
Proof.
  exact (@button_click_requests ascii_text (CallbackQuery "top100") (fresh_world ∅ market_http)).
Defined.

(** ** The list branches on a document that cannot be rendered *)

(** X13.  When the document fetched for a list cannot be rendered (so
    when the fetch failed and gave [None]), each of the three list
    branches raises after its "Fetching" notice: the notice is the last
    thing sent, no keyboard follows and no state is returned. *)
Theorem button_click_list_unrenderable `{PyText} (w : World) (v : json) (h' : Http) :
  renderable v = false ->
  let stuck := fun notice =>
    {| user_data := user_data w; http := h';
       chat := chat w ++ [Answer; EditMessageText notice None] |} in
  (get_top_cryptos 100 (http w) = (Ok v, h') ->
   exists e, button_click (CallbackQuery "top100") w =
     (Raise e, stuck "Fetching top cryptocurrencies, please wait...")) /\
  (get_trending_cryptos (http w) = (Ok v, h') ->
   exists e, button_click (CallbackQuery "trending") w =
     (Raise e, stuck "Fetching trending cryptocurrencies, please wait...")) /\
  (get_top_cryptos 100 (http w) = (Ok v, h') ->
   forall crypto_id, user_data w !! "crypto" = Some crypto_id -> crypto_id <> "" ->
   exists e, button_click (CallbackQuery "compare_selection") w =
     (Raise e, stuck "Fetching top 100 currencies for comparison, please wait...")).
Proof.
  intros Hv stuck. subst stuck. cbv beta.
  split; [|split].
  - intros E. rewrite (button_click_top100 w v h' E). unfold bind.
    match goal with |- context [show_crypto_list ?u v ?t ?w1] =>
      destruct (show_crypto_list_not_renderable u t v w1 Hv) as (e & ->) end.
    exists e. reflexivity.
  - intros E. rewrite (button_click_trending w v h' E). unfold bind.
    match goal with |- context [show_crypto_list ?u v ?t ?w1] =>
      destruct (show_crypto_list_not_renderable u t v w1 Hv) as (e & ->) end.
    exists e. reflexivity.
  - intros E crypto_id Hud Hne.
    rewrite (button_click_compare w crypto_id v h' Hud Hne E). unfold bind.
    match goal with |- context [show_crypto_list ?u v ?t ?w1] =>
      destruct (show_crypto_list_not_renderable u t v w1 Hv) as (e & ->) end.
    exists e. reflexivity.
Qed.

Lemma button_click_list_unrenderable_witness :
  exists e, @button_click ascii_text (CallbackQuery "top100") (fresh_world ∅ dead_http) =
    (Raise e,
     {| user_data := user_data (fresh_world ∅ dead_http);
        http := snd (get_top_cryptos 100 dead_http);
        chat := chat (fresh_world ∅ dead_http) ++
          [Answer; EditMessageText "Fetching top cryptocurrencies, please wait..." None] |}).
Proof.
  destruct (@button_click_list_unrenderable ascii_text (fresh_world ∅ dead_http) py_None
              (snd (get_top_cryptos 100 dead_http)) eq_refl) as (Htop & _ & _).
  apply Htop. reflexivity.
Defined.

(** ** Choosing an asset *)

Lemma split_first_piece (sep : ascii) (s : string) piece pieces :
  split sep s = piece :: pieces ->
  has_char sep piece = false /\
  ((pieces = [] /\ s = piece) \/ exists more, s = piece +:+ String sep more).
Proof.
  revert piece pieces. induction s as [|c s IH]; simpl; intros piece pieces E.
  - injection E as <- <-. split; [reflexivity|left; split; reflexivity].
  - case_bool_decide as Hc.
    + injection E as <- <-. subst c. split; [reflexivity|].
      right. exists s. reflexivity.
    + destruct (split sep s) as [|p ps] eqn:Es.
      * destruct (split_nonempty sep s) as (? & ? & Hne). congruence.
      * destruct (IH p ps eq_refl) as [Hp Hs]. injection E as <- <-.
        split.
        { simpl. rewrite bool_decide_eq_false_2 by exact Hc. exact Hp. }
        destruct Hs as [[-> ->]|[more ->]].
        { left. split; reflexivity. }
        { right. exists more. reflexivity. }
Qed.

(** X14.  The id stored by an asset selection is what stands between the
    first colon of the payload and the next one (or the end): it never
    contains a colon, and the payload is ['crypto:'] followed by it and, at
    most, a colon and a remainder that is dropped. *)
Theorem stored_asset_id `{PyText} (data : string) (w : World) :
  startswith data "crypto:" = true ->
  exists chosen,
    user_data (snd (button_click (CallbackQuery data) w)) !! "crypto" = Some chosen /\
    has_char ":" chosen = false /\
    (data = "crypto:" +:+ chosen \/
     exists more, data = "crypto:" +:+ chosen +:+ String ":" more).
Proof.
  intros Hs.
  destruct (button_click_crypto data w Hs) as (chosen & kb & Hidx & ->).
  exists chosen. cbn [snd user_data]. split; [apply lookup_insert_eq|].
  destruct (startswith_app _ _ Hs) as [rest ->].
  destruct (index_split_crypto rest) as (c & ps & Hsplit & Hidx').
  rewrite Hidx in Hidx'. injection Hidx' as ->.
  destruct (split_first_piece ":" rest c ps Hsplit) as [Hfree Hshape].
  split; [exact Hfree|].
  destruct Hshape as [[_ ->]|[more ->]]; [left; reflexivity|].
  right. exists more. reflexivity.
Qed.

Lemma stored_asset_id_witness :
  exists chosen,
    user_data (snd (@button_click ascii_text (CallbackQuery "crypto:a:b")
                      (fresh_world ∅ market_http))) !! "crypto" = Some chosen /\
    has_char ":" chosen = false /\
    ("crypto:a:b" = "crypto:" +:+ chosen \/
     exists more, "crypto:a:b" = "crypto:" +:+ chosen +:+ String ":" more).
Proof.
  apply (@stored_asset_id ascii_text "crypto:a:b" (fresh_world ∅ market_http)).
  reflexivity.
Defined.

(** ** Events in sequence *)



(** X16.  No handler removes the chosen asset: once something is stored
    under ['crypto'] it stays stored through every update handled by the
    button handler (also when the handler raises) and through [start],
    which leaves the whole dictionary alone; going back to the main menu
    does not clear the selection. *)
Theorem chosen_asset_is_never_removed `{PyText} (update : Update) (w : World) :
  is_Some (user_data w !! "crypto") ->
  is_Some (user_data (snd (button_click update w)) !! "crypto") /\
  user_data (snd (start update w)) = user_data w /\
  (forall crypto_id data,
     user_data w !! "crypto" = Some crypto_id ->
     update = CallbackQuery data -> data = "main_menu" \/ data = "quit" ->
     user_data (snd (button_click update w)) !! "crypto" = Some crypto_id).
Proof.
  intros Hsome.
  assert (Hkeep : forall data, update = CallbackQuery data ->
            startswith data "crypto:" = false ->
            user_data (snd (button_click update w)) = user_data w).
  { intros data -> Hs. enter_click. rewrite Hs.
    match goal with |- user_data (snd (?m ?w1)) = _ =>
      assert (K : keeps_user_data m) by keeps; exact (K w1) end. }
  split; [|split].
  - destruct update as [data|text|]; [|exact Hsome..].
    destruct (startswith data "crypto:") eqn:Hs.
    + destruct (button_click_crypto data w Hs) as (chosen & kb & _ & ->).
      cbn [snd user_data]. rewrite lookup_insert_eq. eexists. reflexivity.
    + rewrite (Hkeep data eq_refl Hs). exact Hsome.
  - destruct update; reflexivity.
  - intros crypto_id data Hud -> Hd.
    rewrite (Hkeep data eq_refl); [exact Hud|].
    destruct Hd as [-> | ->]; reflexivity.
Qed.

Lemma chosen_asset_is_never_removed_witness :
  is_Some (user_data (snd (@button_click ascii_text (CallbackQuery "main_menu")
                             (fresh_world {["crypto" := "bitcoin"]} market_http))) !! "crypto").
Proof.
  destruct (@chosen_asset_is_never_removed ascii_text (CallbackQuery "main_menu")
              (fresh_world {["crypto" := "bitcoin"]} market_http)) as [Hs _].
  - eexists. reflexivity.
  - exact Hs.
Defined.

(** X17.  An asset selection whose id is empty (the payload is
    ['crypto:'] alone, or a second colon follows at once) stores the empty
    string, and "Compare" then behaves as if nothing were chosen: the guard
    message, no fetch, no state. *)
Theorem empty_asset_id_is_guarded `{PyText} (rest : string) (w : World) :
  rest = "" \/ (exists more, rest = String ":" more) ->
  let w1 := snd (button_click (CallbackQuery ("crypto:" +:+ rest)) w) in
  user_data w1 !! "crypto" = Some "" /\
  button_click (CallbackQuery "compare_selection") w1 =
    (Ok None,
     {| user_data := user_data w1; http := http w;
        chat := chat w1 ++
          [Answer; EditMessageText "Please select a cryptocurrency before comparing." None] |}).
Proof.
  intros Hrest w1.
  destruct (button_click_crypto ("crypto:" +:+ rest) w (startswith_app_true "crypto:" rest))
    as (chosen & kb & Hidx & E).
  assert (chosen = "") as ->.
  { destruct (index_split_crypto rest) as (c & ps & Hsplit & Hidx').
    rewrite Hidx in Hidx'. injection Hidx' as ->.
    destruct Hrest as [->|[more ->]]; simpl in Hsplit.
    - injection Hsplit as <- _. reflexivity.
    - injection Hsplit as <- _. reflexivity. }
  assert (Hud : user_data w1 !! "crypto" = Some "").
  { subst w1. rewrite E. cbn [snd user_data]. apply lookup_insert_eq. }
  split; [exact Hud|].
  rewrite (button_click_compare_guard w1 (or_intror Hud)).
  subst w1. rewrite E. reflexivity.
Qed.

Lemma empty_asset_id_is_guarded_witness :
  user_data (snd (@button_click ascii_text (CallbackQuery ("crypto:" +:+ ""))
                    (fresh_world ∅ market_http))) !! "crypto" = Some "" /\
  @button_click ascii_text (CallbackQuery "compare_selection")
    (snd (@button_click ascii_text (CallbackQuery ("crypto:" +:+ ""))
            (fresh_world ∅ market_http))) =
    (Ok None,
     {| user_data := user_data (snd (@button_click ascii_text (CallbackQuery ("crypto:" +:+ ""))
                                       (fresh_world ∅ market_http)));
        http := http (fresh_world ∅ market_http);
        chat := chat (snd (@button_click ascii_text (CallbackQuery ("crypto:" +:+ ""))
                             (fresh_world ∅ market_http))) ++
          [Answer; EditMessageText "Please select a cryptocurrency before comparing." None] |}).
Proof.
  apply (@empty_asset_id_is_guarded ascii_text "" (fresh_world ∅ market_http)).
  left. reflexivity.
Defined.

(** X18.  The search prompt leads nowhere: "Search" returns
    [TYPING_SEARCH] after asking for a name, and a text message handed to
    the button handler then raises an [AttributeError] before anything is
    acknowledged, sent, stored or fetched. *)
Theorem search_then_text_message `{PyText} (text : string) (w : World) :
  let w1 :=
    {| user_data := user_data w; http := http w;
       chat := chat w ++
         [Answer;
          EditMessageText "Please enter the name of the cryptocurrency you want to check:"
            None] |} in
  button_click (CallbackQuery "search") w = (Ok (Some TYPING_SEARCH), w1) /\
  button_click (Message text) w1 = (Raise AttributeError, w1).
Proof.
  intros w1. split; [|reflexivity].
  enter_click. pick_branch. rewrite bind_edit_message_text. unfold ret.
  subst w1. cbn [answered user_data http chat]. rewrite <- app_assoc. reflexivity.
Qed.
